(** * student-dashboard-v2: the analysis script [analysis.py]

    A shallow embedding of the script that synthesises student metrics,
    derives an assessment score, clusters the students into three learning
    personas and exports the enriched table as JSON records.

    Modelling conventions.
    - A pandas [DataFrame] is a row count together with an ordered
      association list of named columns; a column is a list of dynamically
      typed cells.
    - In the frame, the score and the clustering, numpy floats are exact
      rationals ([Q]): the rounding error of binary64 is not modelled
      there, and an arithmetic statement about those values is a statement
      about the exact value that the float computation approximates.  The
      scaler is given a second time over binary64 ([MinMaxScaler64]),
      where rounding decides what can be said about its values.
    - Python exceptions are values of [exn]; fallible steps return [result].
    - The global numpy generator and the file system form the [World] that
      the script threads through its statements; the closing [print] is
      left out.  A file holds the records handed to the serialiser; its
      text is not modelled.
    - The pseudo-random generator is an interface ([Generator]): its
      algorithm is not fixed, only that draws are functions of its state.
    - [MinMaxScaler] and [KMeans] are library calls.  The scaler is
      modelled by the arithmetic it performs; the clustering follows the
      algorithm that section 4.2 of the specification lays down, with the
      input check and the final assignment of the library. *)

From Stdlib Require Import ZArith QArith Qround Qminmax.
From Stdlib Require Import List String Ascii Bool Arith Lia Lqa.
From Stdlib Require Import DecimalString DecimalNat.
From Stdlib Require Floats Uint63.
Import ListNotations.

(* ================================================================== *)
(** ** Cells, columns, frames *)

Inductive value : Type :=
| VStr (s : string)
| VInt (z : Z)
| VFloat (q : Q)
| VNaN.

Definition column := list value.

(** One exported JSON object: field names with their cells, in order. *)
Definition record := list (string * value).

Record DataFrame : Type := mkDF {
  nrows : nat;
  columns : list (string * column)
}.

Inductive exn : Type :=
| KeyError (missing : list string)
| ValueError (msg : string)
| OSError (msg : string).

Inductive result (A : Type) : Type :=
| Ok (a : A)
| Raise (e : exn).

Arguments Ok {A} a.
Arguments Raise {A} e.

Definition rbind {A B} (r : result A) (k : A -> result B) : result B :=
  match r with
  | Ok a => k a
  | Raise e => Raise e
  end.

(** The value of a result, or [d] when it is an exception. *)
Definition value_or {A} (d : A) (r : result A) : A :=
  match r with
  | Ok a => a
  | Raise _ => d
  end.

Declare Scope result_scope.
Delimit Scope result_scope with result.
Notation "'try' x <- r ; k" := (rbind r (fun x => k))
  (at level 10, x name, r at level 100, k at level 200) : result_scope.

Local Open Scope string_scope.
Local Open Scope list_scope.

Module Frame.

Definition names (df : DataFrame) : list string := map fst (columns df).

Fixpoint assoc {A} (k : string) (l : list (string * A)) : option A :=
  match l with
  | [] => None
  | (k', v) :: l' => if String.eqb k k' then Some v else assoc k l'
  end.

Definition has_column (df : DataFrame) (k : string) : bool :=
  match assoc k (columns df) with Some _ => true | None => false end.

(** [pd.DataFrame({...})]: all arrays must have one length. *)
Definition DataFrame_of_dict (data : list (string * column)) : result DataFrame :=
  match data with
  | [] => Ok (mkDF 0 [])
  | (_, c) :: _ =>
      let n := List.length c in
      if forallb (fun kc => Nat.eqb (List.length (snd kc)) n) data
      then Ok (mkDF n data)
      else Raise (ValueError "All arrays must be of the same length")
  end.

(** [df[[k1, ..., kn]]]: the listed columns, in the listed order; a
    [KeyError] naming the absent ones when any is absent. *)
Definition getitem_list (df : DataFrame) (ks : list string)
  : result (list (string * column)) :=
  match filter (fun k => negb (has_column df k)) ks with
  | [] =>
      Ok (map (fun k => (k, match assoc k (columns df) with
                            | Some c => c
                            | None => []
                            end)) ks)
  | missing => Raise (KeyError missing)
  end.

(** [df[k]]. *)
Definition getitem (df : DataFrame) (k : string) : result column :=
  match assoc k (columns df) with
  | Some c => Ok c
  | None => Raise (KeyError [k])
  end.

Fixpoint replace_or_append (k : string) (c : column)
         (l : list (string * column)) : list (string * column) :=
  match l with
  | [] => [(k, c)]
  | (k', c') :: l' =>
      if String.eqb k k' then (k', c) :: l'
      else (k', c') :: replace_or_append k c l'
  end.

(** [df[k] = c]: overwrite the column in place or append a new one. *)
Definition setitem (df : DataFrame) (k : string) (c : column) : result DataFrame :=
  if Nat.eqb (List.length c) (nrows df)
  then Ok (mkDF (nrows df) (replace_or_append k c (columns df)))
  else Raise (ValueError "Length of values does not match length of index").

(** [df.drop(columns=ks)]: a new frame without the listed columns. *)
Definition drop (df : DataFrame) (ks : list string) : result DataFrame :=
  match filter (fun k => negb (has_column df k)) ks with
  | [] =>
      Ok (mkDF (nrows df)
               (filter (fun kc => negb (existsb (String.eqb (fst kc)) ks))
                       (columns df)))
  | missing => Raise (KeyError missing)
  end.

Definition row (df : DataFrame) (i : nat) : record :=
  map (fun kc => (fst kc, nth i (snd kc) VNaN)) (columns df).

(** [df.to_json(orient='records')], as the sequence of objects it
    serialises: one per row, in row order. *)
Definition to_records (df : DataFrame) : list record :=
  map (row df) (seq 0 (nrows df)).

(** [Series.map(dict)]: cells without an entry in the dict become NaN. *)
Definition series_map (d : list (Z * string)) (s : column) : column :=
  map (fun v =>
         match v with
         | VInt z =>
             match find (fun e => Z.eqb (fst e) z) d with
             | Some e => VStr (snd e)
             | None => VNaN
             end
         | _ => VNaN
         end) s.

(** Frames that pandas can hold: every column has [nrows] cells and no
    column name occurs twice. *)
Definition wf (df : DataFrame) : Prop :=
  Forall (fun kc => List.length (snd kc) = nrows df) (columns df)
  /\ NoDup (names df).

End Frame.

(* ================================================================== *)
(** ** numpy arithmetic on exact rationals *)

Module Np.

Local Open Scope Q_scope.

(** Round to the nearest integer, halves to the even neighbour
    ([ndarray.round], [np.round]). *)
Definition round_half_even (q : Q) : Z :=
  let f := Qfloor q in
  match Qcompare (q - inject_Z f) (1 # 2) with
  | Lt => f
  | Gt => (f + 1)%Z
  | Eq => if Z.even f then f else (f + 1)%Z
  end.

Definition round (q : Q) : Q := inject_Z (round_half_even q).

(** [x.round(1)]: one decimal.  The tenth is chosen from the exact value
    of [q * 10]; numpy rounds the binary64 product, which can choose the
    other tenth when [q * 10] is within a rounding error of a half. *)
Definition round1 (q : Q) : Q := inject_Z (round_half_even (q * 10)) / 10.

(** [np.clip(x, lo, hi)] is [minimum(maximum(x, lo), hi)]. *)
Definition clip (q lo hi : Q) : Q := Qmin (Qmax q lo) hi.

(** [astype(int)] truncates toward zero. *)
Definition astype_int (q : Q) : Z :=
  if Qle_bool 0 q then Qfloor q else Qceiling q.

Fixpoint map2 {A B C} (f : A -> B -> C) (l1 : list A) (l2 : list B) : list C :=
  match l1, l2 with
  | a :: l1', b :: l2' => f a b :: map2 f l1' l2'
  | _, _ => []
  end.

(** Element-wise sum and scalar product of arrays of one length. *)
Definition add (u v : list Q) : list Q := map2 Qplus u v.
Definition scale (k : Q) (u : list Q) : list Q := map (fun x => x * k) u.
Definition of_ints (u : list Z) : list Q := map inject_Z u.

End Np.

(* ================================================================== *)
(** ** The derived assessment score (lines 21-27) *)

Definition weights : list (string * Q) :=
  [("comprehension", 3 # 10); ("attention", 2 # 10);
   ("focus", 25 # 100); ("retention", 15 # 100)].

Definition weight (k : string) : Q :=
  match Frame.assoc k weights with Some w => w | None => 0%Q end.

(** Lines 21-26: the weighted sum, over exact rationals.  The binary64
    sum of the script differs from it in the last bits. *)
Definition score_raw (comprehension attention focus retention : list Z)
           (engagement_time noise : list Q) : list Q :=
  Np.add
    (Np.add
       (Np.add
          (Np.add
             (Np.add (Np.scale (weight "comprehension") (Np.of_ints comprehension))
                     (Np.scale (weight "attention") (Np.of_ints attention)))
             (Np.scale (weight "focus") (Np.of_ints focus)))
          (Np.scale (weight "retention") (Np.of_ints retention)))
       (Np.scale (25 # 10) engagement_time))
    noise.

(** [np.clip(s.round(0), 0, 100).astype(int)] for one entry. *)
Definition clamp_score (s : Q) : Z :=
  Np.astype_int (Np.clip (Np.round s) 0 100).

Definition assessment_score (raw : list Q) : list Z := map clamp_score raw.

(* ================================================================== *)
(** ** Min-max scaling (lines 37-39) *)

Definition vector := list Q.

Module MinMaxScaler.

Local Open Scope Q_scope.

Definition data_min (c : list Q) : Q :=
  match c with [] => 0 | x :: xs => fold_left Qmin xs x end.

Definition data_max (c : list Q) : Q :=
  match c with [] => 0 | x :: xs => fold_left Qmax xs x end.

(** [np.finfo(np.float64).eps]. *)
Definition eps : Q := 1 # 4503599627370496.

(** A feature whose range is below ten machine epsilons counts as
    constant; its scale is taken as 1. *)
Definition handle_zeros_in_scale (r : Q) : Q :=
  if Qle_bool (10 * eps) r then r else 1.

(** [feature_range] is left at its default, (0, 1). *)
Definition feature_range : Q * Q := (0, 1).

Definition scale_ (c : list Q) : Q :=
  (snd feature_range - fst feature_range)
  / handle_zeros_in_scale (data_max c - data_min c).

Definition min_ (c : list Q) : Q :=
  fst feature_range - data_min c * scale_ c.

(** [transform] of one feature: [X * scale_ + min_], over exact
    rationals.  [MinMaxScaler64] below has the binary64 values. *)
Definition transform_column (c : list Q) : list Q :=
  map (fun x => x * scale_ c + min_ c) c.

(** The conversion of a cell to a float.  A cell that holds a number is
    converted.  NaN is refused: the scaler itself lets NaN through and it
    is the clustering that refuses it, with the same [ValueError] and
    before anything is written.  A string is refused; the library would
    convert a string that spells a number, and frames with such cells are
    not described by this model. *)
Definition to_float (v : value) : result Q :=
  match v with
  | VInt z => Ok (inject_Z z)
  | VFloat q => Ok q
  | VStr _ => Raise (ValueError "could not convert string to float")
  | VNaN => Raise (ValueError "Input contains NaN")
  end.

Fixpoint to_floats (c : column) : result (list Q) :=
  match c with
  | [] => Ok []
  | v :: c' =>
      (try q <- to_float v;
       try qs <- to_floats c';
       Ok (q :: qs))%result
  end.

Fixpoint to_numeric (cols : list (string * column)) : result (list (list Q)) :=
  match cols with
  | [] => Ok []
  | (_, c) :: cols' =>
      (try qs <- to_floats c;
       try rest <- to_numeric cols';
       Ok (qs :: rest))%result
  end.

(** Rows of a column-major table of [n] samples. *)
Definition rows (n : nat) (cols : list (list Q)) : list vector :=
  map (fun i => map (fun c => nth i c 0) cols) (seq 0 n).

(** [fit_transform] of the selected columns of an [n]-row frame: the
    scaled array, one vector per row. *)
Definition fit_transform (n : nat) (sel : list (string * column))
  : result (list vector) :=
  match n with
  | O => Raise (ValueError "Found array with 0 sample(s)")
  | S _ =>
      (try cols <- to_numeric sel;
       Ok (rows n (map transform_column cols)))%result
  end.

End MinMaxScaler.

(* ================================================================== *)
(** ** Min-max scaling in binary64 *)

(** The estimator over the primitive binary64 numbers, with the
    operations of the library in their order:
    [data_range_ = data_max_ - data_min_],
    [scale_ = (max - min) / _handle_zeros_in_scale(data_range_)],
    [min_ = min - data_min_ * scale_], and [transform] computes
    [X * scale_ + min_].  Every operation rounds to nearest. *)
Module MinMaxScaler64.

Import PrimFloat.
Local Open Scope float_scope.

(** An integer as a binary64 number: exact below 2^53. *)
Definition of_int (z : Z) : float :=
  if (z <? 0)%Z
  then - of_uint63 (Uint63.of_Z (- z))
  else of_uint63 (Uint63.of_Z z).

(** [np.nanmin] and [np.nanmax] of a column without NaN. *)
Definition data_min (c : list float) : float :=
  match c with
  | [] => 0
  | x :: xs => fold_left (fun m y => if ltb y m then y else m) xs x
  end.

Definition data_max (c : list float) : float :=
  match c with
  | [] => 0
  | x :: xs => fold_left (fun m y => if ltb m y then y else m) xs x
  end.

(** [np.finfo(np.float64).eps]: 2^-52. *)
Definition eps : float := 0x1p-52.

Definition handle_zeros_in_scale (r : float) : float :=
  if ltb r (10 * eps) then 1 else r.

Definition feature_range : float * float := (0, 1).

(** The fitted attributes for a feature whose least value is [lo] and
    whose greatest value is [hi]. *)
Definition scale_of (lo hi : float) : float :=
  (snd feature_range - fst feature_range) / handle_zeros_in_scale (hi - lo).

Definition min_of (lo hi : float) : float :=
  fst feature_range - lo * scale_of lo hi.

Definition scale_ (c : list float) : float :=
  scale_of (data_min c) (data_max c).

Definition min_ (c : list float) : float :=
  min_of (data_min c) (data_max c).

(** [transform] of one entry, and of the feature. *)
Definition transform (c : list float) (x : float) : float :=
  x * scale_ c + min_ c.

Definition transform_column (c : list float) : list float :=
  map (transform c) c.

(** The formula of section 4.1 of the specification, evaluated in
    binary64: it is not what the library computes, and is here to be
    compared with [transform]. *)
Definition spec_normalized (c : list float) (x : float) : float :=
  (x - data_min c) / (data_max c - data_min c).

(** The two kinds of feature that the record source produces: a metric
    with whole values, and a time with one decimal, which [round(1)]
    leaves as an integer divided by ten. *)
Inductive feature_kind : Type := Metric | Tenths.

Definition cell (kind : feature_kind) (k : Z) : float :=
  match kind with
  | Metric => of_int k
  | Tenths => of_int k / 10
  end.

(** The values of a feature: a metric lies between 0 and 100, a time
    between 5.0 and 20.0, written in tenths. *)
Definition in_range (kind : feature_kind) (k : Z) : Prop :=
  match kind with
  | Metric => (0 <= k <= 100)%Z
  | Tenths => (50 <= k <= 200)%Z
  end.

Definition grid (kind : feature_kind) : list Z :=
  match kind with
  | Metric => map Z.of_nat (seq 0 101)
  | Tenths => map Z.of_nat (seq 50 151)
  end.

(** Least and greatest entry of a column of integers. *)
Definition zmin (ks : list Z) : Z :=
  match ks with [] => 0%Z | k :: ks' => fold_left Z.min ks' k end.

Definition zmax (ks : list Z) : Z :=
  match ks with [] => 0%Z | k :: ks' => fold_left Z.max ks' k end.

(** The bounds that the scaled values meet: 1 + 2^-47 from above, and
    2^-45 for the distance to the formula of the specification. *)
Definition upper_bound : float := 1 + 0x1p-47.
Definition tolerance : float := 0x1p-45.

(** What is checked of the scaled value [v] of an entry [x] of a
    feature with least value [lo] and greatest value [hi]; [const] says
    that the feature is constant, [least] that the entry is its least. *)
Definition checked (lo hi x v : float) (const least : bool) : bool :=
  leb 0 v && leb v upper_bound
  && (if const then eqb v 0
      else leb (abs (v - (x - lo) / (hi - lo))) tolerance)
  && (if least then eqb v 0 else true).

Definition within (kind : feature_kind) (lo hi x : Z) : bool :=
  checked (cell kind lo) (cell kind hi) (cell kind x)
          (cell kind x * scale_of (cell kind lo) (cell kind hi)
           + min_of (cell kind lo) (cell kind hi))
          (lo =? hi)%Z (x =? lo)%Z.

(** The check of every entry of every feature over the values of the
    given kind, and the check that the conversion keeps the order. *)
Definition within_all (kind : feature_kind) : bool :=
  let g := grid kind in
  forallb (fun lo =>
    let flo := cell kind lo in
    forallb (fun hi =>
      if (lo <=? hi)%Z
      then
        let fhi := cell kind hi in
        let s := scale_of flo fhi in
        let m := fst feature_range - flo * s in
        let const := (lo =? hi)%Z in
        forallb (fun x =>
          if (lo <=? x)%Z && (x <=? hi)%Z
          then let fx := cell kind x in
               checked flo fhi fx (fx * s + m) const (x =? lo)%Z
          else true)
          g
      else true)
      g)
    g.

Definition order_kept (kind : feature_kind) : bool :=
  let g := grid kind in
  forallb (fun a =>
    forallb (fun b => Bool.eqb (ltb (cell kind a) (cell kind b)) (a <? b)%Z)
      g)
    g.

(** The claim of section 4.1 about the values of a feature: each is what
    the formula gives, a constant feature is sent to 0, and every value
    lies between 0 and 1. *)
Definition normalized_as_specified (c : list float) : Prop :=
  forall x, In x c ->
    (eqb (data_max c) (data_min c) = false ->
     eqb (transform c x) (spec_normalized c x) = true)
    /\ (eqb (data_max c) (data_min c) = true -> eqb (transform c x) 0 = true)
    /\ leb 0 (transform c x) = true
    /\ leb (transform c x) 1 = true.

End MinMaxScaler64.

(* ================================================================== *)
(** ** Pseudo-random generators *)

(** The generator algorithm is left abstract: a state type, seeding, and
    one-sample draws that return the sample with the advanced state.
    [pick_center] is the seeded rule that chooses the next initial centroid
    from the data and the centroids chosen so far. *)
Class Generator : Type := {
  rng : Type;
  RandomState : Z -> rng;
  choice1 : list string -> list Q -> rng -> string * rng;
  randint1 : Z -> Z -> rng -> Z * rng;
  uniform1 : Q -> Q -> rng -> Q * rng;
  normal1 : Q -> Q -> rng -> Q * rng;
  pick_center : list vector -> list vector -> rng -> vector * rng
}.

(** [size=n] draws: [n] successive samples. *)
Fixpoint draw {G A : Type} (n : nat) (one : G -> A * G) (g : G) : list A * G :=
  match n with
  | O => ([], g)
  | S n' =>
      let (a, g1) := one g in
      let (l, g2) := draw n' one g1 in
      (a :: l, g2)
  end.

(* ================================================================== *)
(** ** K-means (lines 40-41) *)

Module KMeans.

Local Open Scope Q_scope.

(** Squared Euclidean distance; it orders centroids exactly as the
    Euclidean distance does. *)
Fixpoint sq_dist (x c : vector) : Q :=
  match x, c with
  | xi :: x', ci :: c' => (xi - ci) * (xi - ci) + sq_dist x' c'
  | _, _ => 0
  end.

(** Scan of the remaining centroids [cs], the next of which has index
    [i]; [best] is the best index so far, at distance [bestd].  Only a
    strictly smaller distance replaces it: ties go to the lowest index. *)
Fixpoint argmin_from (x : vector) (cs : list vector) (i best : nat) (bestd : Q)
  : nat :=
  match cs with
  | [] => best
  | c :: cs' =>
      let d := sq_dist x c in
      if Qle_bool bestd d
      then argmin_from x cs' (S i) best bestd
      else argmin_from x cs' (S i) i d
  end.

(** Modelled from the spec: the assignment step of section 4.2, which the
    repository leaves to the library: the index of the nearest centroid,
    the lowest such index on a tie. *)
Definition nearest (x : vector) (C : list vector) : nat :=
  match C with
  | [] => O
  | c :: cs => argmin_from x cs 1 0 (sq_dist x c)
  end.

Definition assign (X C : list vector) : list nat :=
  map (fun x => nearest x C) X.

(** The vectors labelled [j]. *)
Definition members (j : nat) (A : list nat) (X : list vector) : list vector :=
  map snd (filter (fun ax => Nat.eqb (fst ax) j) (combine A X)).

Definition vsum (vs : list vector) : vector :=
  match vs with
  | [] => []
  | v :: vs' => fold_left Np.add vs' v
  end.

Definition mean (vs : list vector) : vector :=
  map (fun s => s / inject_Z (Z.of_nat (List.length vs))) (vsum vs).

(** Modelled from the spec: the update step of section 4.2, which the
    repository leaves to the library: each centroid becomes the mean of
    its cluster; an empty cluster keeps the centroid it had. *)
Definition update_centers (C : list vector) (A : list nat) (X : list vector)
  : list vector :=
  map (fun jc =>
         match members (fst jc) A X with
         | [] => snd jc
         | m => mean m
         end)
      (combine (seq 0 (List.length C)) C).

Record fit_result : Type := mkFit {
  labels_ : list nat;
  cluster_centers_ : list vector;
  n_iter_ : nat;
  converged : bool
}.

Definition labels_eqb (a b : list nat) : bool :=
  if list_eq_dec Nat.eq_dec a b then true else false.

(** Modelled from the spec: the loop of section 4.2, which the repository
    leaves to the library.  One pass assigns and recomputes.  [A] and [C]
    are the assignment and the centroids that the previous pass produced;
    [fuel] passes remain.  A pass that changes no assignment ends the
    loop; so does running out of passes, and then, as the library does,
    the vectors are assigned once more, so that the labels returned are
    those of the centroids returned. *)
Fixpoint lloyd_loop (fuel : nat) (X C : list vector) (A : list nat) (it : nat)
  : fit_result :=
  match fuel with
  | O => mkFit (assign X C) C it false
  | S fuel' =>
      let A' := assign X C in
      let C' := update_centers C A' X in
      if labels_eqb A' A
      then mkFit A' C' (S it) true
      else lloyd_loop fuel' X C' A' (S it)
  end.

(** Modelled from the spec: the clustering routine ([KMeans.fit_predict])
    is a library call whose code is not in the repository.  Section 4.2 of the
    specification gives it as: start from K centroids; repeat { assign
    each vector to its nearest centroid, ties to the lowest index;
    recompute each centroid as the mean of its vectors, an empty cluster
    keeping its centroid }; stop when no assignment changes or when
    [max_iter] passes are done.  Arithmetic is exact.  The library differs
    in ways that this model leaves out: it works in binary64, it also
    stops when the centroids move less than a tolerance, and it moves the
    centroid of an empty cluster onto a far vector. *)
Definition lloyd (max_iter : nat) (X C0 : list vector) : fit_result :=
  let A0 := assign X C0 in
  lloyd_loop (max_iter - 1) X (update_centers C0 A0 X) A0 1.

Definition center_of (f : fit_result) (j : nat) : vector :=
  nth j (cluster_centers_ f) [].

(** Sum of squared distances of the vectors to their centroids. *)
Definition inertia (X : list vector) (f : fit_result) : Q :=
  fold_left Qplus
            (map (fun ax => sq_dist (snd ax) (center_of f (fst ax)))
                 (combine (labels_ f) X))
            0.

Section Seeded.

Context {G : Generator}.

(** Modelled from the spec: section 4.2 asks only that the K initial
    centroids be a function of the seed and the data; they are K
    successive choices of the seeded generator. *)
Fixpoint init_centroids (k : nat) (X chosen : list vector) (g : rng)
  : list vector * rng :=
  match k with
  | O => (chosen, g)
  | S k' =>
      let (c, g') := pick_center X chosen g in
      init_centroids k' X (chosen ++ [c]) g'
  end.

(** Modelled from the spec: the specification has one run; the call of
    line 40 asks for [n_init] of them.  [n] further restarts; a restart
    replaces the incumbent only with a strictly smaller inertia. *)
Fixpoint restarts (n k max_iter : nat) (X : list vector) (g : rng)
         (best : fit_result) : fit_result :=
  match n with
  | O => best
  | S n' =>
      let (C0, g') := init_centroids k X [] g in
      let f := lloyd max_iter X C0 in
      restarts n' k max_iter X g'
               (if Qle_bool (inertia X best) (inertia X f) then best else f)
  end.

(** Modelled from the spec: the fitted estimator of
    [KMeans(n_clusters, random_state, n_init, max_iter)] on an array that
    passed the input check of [fit_predict]: the best of [n_init] runs of
    [lloyd] from a private generator seeded with [random_state]. *)
Definition fit (n_clusters : nat) (random_state : Z) (n_init max_iter : nat)
           (X : list vector) : fit_result :=
  let (C0, g) := init_centroids n_clusters X [] (RandomState random_state) in
  restarts (n_init - 1) n_clusters max_iter X g (lloyd max_iter X C0).

(** Modelled from the spec: [fit_predict] returns the labels of the
    fitted estimator.  As the library does, it refuses an array with fewer
    samples than clusters. *)
Definition fit_predict (n_clusters : nat) (random_state : Z)
           (n_init max_iter : nat) (X : list vector) : result (list nat) :=
  if Nat.ltb (List.length X) n_clusters
  then Raise (ValueError "n_samples should be >= n_clusters")
  else Ok (labels_ (fit n_clusters random_state n_init max_iter X)).

End Seeded.

(** The iteration bound the call leaves at the library default. *)
Definition default_max_iter : nat := 300.

End KMeans.

(* ================================================================== *)
(** ** Personas (lines 43-44) *)

Definition persona_names : list (Z * string) :=
  [(0%Z, "Balanced Average");
   (1%Z, "High-Skill Achiever");
   (2%Z, "Low Engagement/Struggler")].

Definition clustering_features : list string :=
  ["comprehension"; "attention"; "focus"; "retention"; "engagement_time"].

Definition cluster_column (cl : list nat) : column :=
  map (fun c => VInt (Z.of_nat c)) cl.

(** The fields of one exported object, in order. *)
Definition output_schema : list string :=
  ["student_id"; "name"; "class"; "comprehension"; "attention"; "focus";
   "retention"; "assessment_score"; "engagement_time"; "learning_persona"].

Section Analysis.

Context {G : Generator}.

Local Open Scope result_scope.

(** Lines 37-39: the scaled feature vectors, one per row. *)
Definition df_scaled (df : DataFrame) : result (list vector) :=
  try sel <- Frame.getitem_list df clustering_features;
  MinMaxScaler.fit_transform (nrows df) sel.

(** Lines 41 and 43-44 for a given array [cl] of cluster indices. *)
Definition label_with (cl : list nat) (df : DataFrame) : result DataFrame :=
  try df1 <- Frame.setitem df "persona_cluster" (cluster_column cl);
  try pc <- Frame.getitem df1 "persona_cluster";
  Frame.setitem df1 "learning_persona" (Frame.series_map persona_names pc).

(** Line 40; [seed] is 42 in the script. *)
Definition kmeans (seed : Z) (X : list vector) : KMeans.fit_result :=
  KMeans.fit 3 seed 10 KMeans.default_max_iter X.

(** Lines 40-44 on the scaled vectors [X]. *)
Definition label_frame (seed : Z) (df : DataFrame) (X : list vector)
  : result DataFrame :=
  try cl <- KMeans.fit_predict 3 seed 10 KMeans.default_max_iter X;
  label_with cl df.

(** Lines 37-44: the frame with its two new columns. *)
Definition enrich (seed : Z) (df : DataFrame) : result DataFrame :=
  try X <- df_scaled df;
  label_frame seed df X.

(** Lines 51-52: what is serialised. *)
Definition df_output (df : DataFrame) : result (list record) :=
  try out <- Frame.drop df ["persona_cluster"];
  Ok (Frame.to_records out).

Definition analysis (seed : Z) (df : DataFrame) : result (list record) :=
  try e <- enrich seed df;
  df_output e.

End Analysis.

(* ================================================================== *)
(** ** The script as a whole *)

Definition decimal (n : nat) : string := NilEmpty.string_of_uint (Nat.to_uint n).

Fixpoint zeros (n : nat) : string :=
  match n with
  | O => EmptyString
  | S n' => String "0"%char (zeros n')
  end.

(** [f'{n:03d}']. *)
Definition format_03d (n : nat) : string :=
  let s := decimal n in (zeros (3 - String.length s) ++ s)%string.

Definition num_students : nat := 100.

Definition student_ids : list string :=
  map (fun i => ("S" ++ format_03d (i + 1))%string) (seq 0 num_students).

Definition names : list string :=
  map (fun i => ("Student_" ++ decimal (i + 1))%string) (seq 0 num_students).

Definition public_dir : string := "public".

(** [os.path.join]. *)
Definition path_join (d f : string) : string := (d ++ "/" ++ f)%string.

Fixpoint has_slash (s : string) : bool :=
  match s with
  | EmptyString => false
  | String c s' => Ascii.eqb c "/" || has_slash s'
  end.

Fixpoint all_slashes (s : string) : bool :=
  match s with
  | EmptyString => true
  | String c s' => Ascii.eqb c "/" && all_slashes s'
  end.

(** The path up to and including its last slash. *)
Fixpoint through_last_slash (s : string) : string :=
  match s with
  | EmptyString => EmptyString
  | String c s' =>
      if Ascii.eqb c "/" || has_slash s'
      then String c (through_last_slash s')
      else EmptyString
  end.

Fixpoint rstrip_slashes (s : string) : string :=
  match s with
  | EmptyString => EmptyString
  | String c s' =>
      if all_slashes s then EmptyString else String c (rstrip_slashes s')
  end.

(** [os.path.dirname]: the part before the last slash, without trailing
    slashes unless it consists of slashes only; empty for a bare name. *)
Definition dirname (p : string) : string :=
  let head := through_last_slash p in
  if all_slashes head then head else rstrip_slashes head.

Section Script.

Context {G : Generator}.

(** What a run can read and change besides its own variables: the state
    of the global generator, the directories and the regular files.  Paths
    are relative to the working directory, which is the empty path.
    Permissions and capacity are not part of the model: the only failures
    of the file system are those of the shape of the tree. *)
Record World : Type := mkWorld {
  np_random : rng;
  dirs : list string;
  files : list (string * list record)
}.

Definition M (A : Type) : Type := World -> result A * World.

Definition ret {A} (a : A) : M A := fun w => (Ok a, w).

Definition bind {A B} (c : M A) (k : A -> M B) : M B :=
  fun w =>
    match c w with
    | (Ok a, w') => k a w'
    | (Raise e, w') => (Raise e, w')
    end.

Definition lift {A} (r : result A) : M A := fun w => (r, w).

Notation "'do' x <- c ; k" := (bind c (fun x => k))
  (at level 10, x name, c at level 100, k at level 200).

(** [np.random.seed(s)] replaces the state of the global generator. *)
Definition np_random_seed (s : Z) : M unit :=
  fun w => (Ok tt, mkWorld (RandomState s) (dirs w) (files w)).

(** A [size=n] draw from the global generator. *)
Definition sample {A} (n : nat) (one : rng -> A * rng) : M (list A) :=
  fun w =>
    let (l, g) := draw n one (np_random w) in
    (Ok l, mkWorld g (dirs w) (files w)).

Definition path_exists (p : string) : M bool :=
  fun w => (Ok (existsb (String.eqb p) (dirs w)
                || existsb (fun f => String.eqb p (fst f)) (files w)), w).

Definition is_dir (w : World) (d : string) : bool :=
  String.eqb d "" || existsb (String.eqb d) (dirs w).

Definition is_file (w : World) (p : string) : bool :=
  existsb (fun f => String.eqb p (fst f)) (files w).

(** [os.makedirs(p)]: an existing path is an error; missing ancestors are
    created first; an ancestor that is a regular file is an error. *)
Fixpoint makedirs_upto (n : nat) (p : string) (w : World) : result unit * World :=
  if existsb (String.eqb p) (dirs w) || is_file w p
  then (Raise (OSError "File exists"), w)
  else if is_dir w (dirname p)
       then (Ok tt, mkWorld (np_random w) (p :: dirs w) (files w))
       else if is_file w (dirname p)
            then (Raise (OSError "Not a directory"), w)
            else match n with
                 | O => (Raise (OSError "No such file or directory"), w)
                 | S n' =>
                     match makedirs_upto n' (dirname p) w with
                     | (Ok _, w') =>
                         (Ok tt,
                          mkWorld (np_random w') (p :: dirs w') (files w'))
                     | (Raise e, w') => (Raise e, w')
                     end
                 end.

Definition makedirs (p : string) : M unit :=
  makedirs_upto (String.length p) p.

(** [DataFrame.to_json(p, ...)] opens [p] for writing: the parent must be
    a directory and [p] itself must not be one.  When it fails nothing is
    written.  The file is modelled by the records it is given, not by its
    text. *)
Definition to_json (p : string) (recs : list record) : M unit :=
  fun w =>
    if is_dir w (dirname p) && negb (existsb (String.eqb p) (dirs w))
    then (Ok tt,
          mkWorld (np_random w) (dirs w)
                  ((p, recs)
                     :: filter (fun f => negb (String.eqb p (fst f)))
                               (files w)))
    else (Raise (OSError "cannot open the file for writing"), w).

Definition read_file (p : string) (w : World) : option (list record) :=
  Frame.assoc p (files w).

(** The dict of lines 29-34. *)
Definition frame_columns (classes : list string)
           (comprehension attention focus retention : list Z)
           (engagement_time : list Q) (score : list Z)
  : list (string * column) :=
  [("student_id", map VStr student_ids);
   ("name", map VStr names);
   ("class", map VStr classes);
   ("comprehension", map VInt comprehension);
   ("attention", map VInt attention);
   ("focus", map VInt focus);
   ("retention", map VInt retention);
   ("assessment_score", map VInt score);
   ("engagement_time", map VFloat engagement_time)].

(** Lines 29-34. *)
Definition make_frame (classes : list string)
           (comprehension attention focus retention : list Z)
           (engagement_time : list Q) (score : list Z) : result DataFrame :=
  Frame.DataFrame_of_dict
    (frame_columns classes comprehension attention focus retention
                   engagement_time score).

(** Lines 10-34: the record source. *)
Definition generate (seed : Z) : M DataFrame :=
  do _ <- np_random_seed seed;
  do classes <- sample num_students
                       (choice1 ["A"; "B"; "C"] [4 # 10; 3 # 10; 3 # 10]);
  do comprehension <- sample num_students (randint1 50 100);
  do attention <- sample num_students (randint1 40 95);
  do focus <- sample num_students (randint1 45 90);
  do retention <- sample num_students (randint1 40 95);
  do u <- sample num_students (uniform1 5 20);
  let engagement_time := map Np.round1 u in
  do noise <- sample num_students (normal1 0 5);
  let raw := score_raw comprehension attention focus retention
                       engagement_time noise in
  lift (make_frame classes comprehension attention focus retention
                   engagement_time (assessment_score raw)).

(** The record source on an explicit generator state: the frame and the
    state after the draws. *)
Definition source (g0 : rng) : result DataFrame * rng :=
  let (classes, g1) :=
    draw num_students (choice1 ["A"; "B"; "C"] [4 # 10; 3 # 10; 3 # 10]) g0 in
  let (comprehension, g2) := draw num_students (randint1 50 100) g1 in
  let (attention, g3) := draw num_students (randint1 40 95) g2 in
  let (focus, g4) := draw num_students (randint1 45 90) g3 in
  let (retention, g5) := draw num_students (randint1 40 95) g4 in
  let (u, g6) := draw num_students (uniform1 5 20) g5 in
  let (noise, g7) := draw num_students (normal1 0 5) g6 in
  (make_frame classes comprehension attention focus retention
              (map Np.round1 u)
              (assessment_score
                 (score_raw comprehension attention focus retention
                            (map Np.round1 u) noise)),
   g7).

(** Where the records are written. *)
Definition output_path : string := path_join public_dir "student_data.json".

(** Lines 37-52 on a given frame. *)
Definition pipeline (seed : Z) (df : DataFrame) : M unit :=
  do e <- lift (enrich seed df);
  do present <- path_exists public_dir;
  do _ <- (if present then ret tt else makedirs public_dir);
  do out <- lift (df_output e);
  to_json output_path out.

(** The whole script. *)
Definition main : M unit :=
  do df <- generate 42;
  pipeline 42 df.

End Script.

(* ================================================================== *)
(** ** The labelling policy of the specification *)

(** Mean of the entries of a centroid: the composite score of section 4.3
    of the specification. *)
Definition composite (c : vector) : Q :=
  (fold_left Qplus c 0 / inject_Z (Z.of_nat (List.length c)))%Q.

(** The policy of section 4.3, in its words: the cluster whose centroid
    has the highest composite score is the high achiever, the one with the
    lowest is the struggler, the remaining one is the balanced average.
    The script does not contain this function; it is stated here to be
    compared with [persona_names]. *)
Definition spec_persona_by_rank (C : list vector) (j : nat) : string :=
  let s := composite (nth j C []) in
  if forallb (fun c => Qle_bool (composite c) s) C
  then "High-Skill Achiever"
  else if forallb (fun c => Qle_bool s (composite c)) C
       then "Low Engagement/Struggler"
       else "Balanced Average".

(* ================================================================== *)
(** ** Sample data *)

Module Sample.

(** A small generator: the state is a counter; the initial centroids are
    every other data vector, from the first one on. *)
#[export] Instance counter : Generator := {|
  rng := nat;
  RandomState := Z.to_nat;
  choice1 := fun opts _ g => (nth (g mod List.length opts) opts "", S g);
  randint1 := fun lo hi g => ((lo + Z.of_nat g mod (hi - lo))%Z, S g);
  uniform1 := fun lo _ g => (lo, S g);
  normal1 := fun mu _ g => (mu, S g);
  pick_center := fun X chosen g => (nth (2 * List.length chosen) X [], S g)
|}.

(** The initial centroids that [counter] picks from [X]. *)
Definition every_other (X : list vector) : list vector :=
  [nth 0 X []; nth 2 X []; nth 4 X []].

Definition ids6 : column :=
  map VStr ["S001"; "S002"; "S003"; "S004"; "S005"; "S006"].

Definition names6 : column :=
  map VStr ["Student_1"; "Student_2"; "Student_3";
            "Student_4"; "Student_5"; "Student_6"].

Definition classes6 : column := map VStr ["A"; "B"; "C"; "A"; "B"; "C"].

(** Three pairs of students: strong, middling, weak. *)
Definition six_students : DataFrame :=
  mkDF 6
    [("student_id", ids6);
     ("name", names6);
     ("class", classes6);
     ("comprehension", map VInt [95; 92; 75; 73; 52; 55]%Z);
     ("attention", map VInt [90; 88; 70; 68; 45; 42]%Z);
     ("focus", map VInt [88; 85; 66; 68; 47; 46]%Z);
     ("retention", map VInt [92; 90; 70; 72; 41; 44]%Z);
     ("assessment_score", map VInt [100; 98; 80; 79; 55; 54]%Z);
     ("engagement_time",
      map VFloat [19 # 1; 185 # 10; 12 # 1; 125 # 10; 55 # 10; 5 # 1]%Q)].

(** Cluster indices that pair the students up. *)
Definition pairs : list nat := [0; 0; 1; 1; 2; 2]%nat.

(** The same frame without its [focus] column. *)
Definition no_focus : DataFrame :=
  mkDF 6
    (filter (fun kc => negb (String.eqb (fst kc) "focus"))
            (columns six_students)).

(** The scaled vectors and the exported records of [six_students]. *)
Definition scaled_six : list vector := value_or [] (df_scaled six_students).

(** The clustering of [six_students] from [every_other]: the pairs, found
    in two passes. *)
Definition fit_six : KMeans.fit_result :=
  KMeans.mkFit pairs
               (KMeans.update_centers (every_other scaled_six) pairs scaled_six)
               2 true.

End Sample.

(** The labelling rule of section 4.3 as a property of a run: every
    exported record carries the persona that the composite-score rank of
    its cluster's centroid selects. *)
Definition labelled_by_composite_rank {G : Generator} (seed : Z) (df : DataFrame)
  : Prop :=
  forall X out i r c,
    df_scaled df = Ok X ->
    analysis seed df = Ok out ->
    nth_error out i = Some r ->
    nth_error (KMeans.labels_ (kmeans seed X)) i = Some c ->
    Frame.assoc "learning_persona" r
    = Some (VStr (spec_persona_by_rank
                    (KMeans.cluster_centers_ (kmeans seed X)) c)).

(* ================================================================== *)
(** ** Notions used in the statements *)

(** The new centroid of cluster [fst jc], whose centroid was [snd jc]. *)
Definition center_rule (A : list nat) (X : list vector) (jc : nat * vector)
  : vector :=
  match KMeans.members (fst jc) A X with
  | [] => snd jc
  | m => KMeans.mean m
  end.

(** What every result of the refinement satisfies, for [k] centroids:
    one label per vector, each the index of a centroid, and the labels are
    those that the centroids returned give. *)
Record sound (k : nat) (X : list vector) (f : KMeans.fit_result) : Prop := {
  sound_length : List.length (KMeans.labels_ f) = List.length X;
  sound_range : Forall (fun a => (a < k)%nat) (KMeans.labels_ f);
  sound_centers : List.length (KMeans.cluster_centers_ f) = k;
  sound_assigned :
    KMeans.labels_ f = KMeans.assign X (KMeans.cluster_centers_ f)
}.

(** The cell that [persona_names] gives a cluster index. *)
Definition persona_of (c : nat) : value :=
  match find (fun e => Z.eqb (fst e) (Z.of_nat c)) persona_names with
  | Some e => VStr (snd e)
  | None => VNaN
  end.

Definition persona_column (cl : list nat) : column :=
  Frame.series_map persona_names (cluster_column cl).

(** The columns of a frame after lines 41-44. *)
Definition enriched_columns (cl : list nat) (cols : list (string * column))
  : list (string * column) :=
  Frame.replace_or_append "learning_persona" (persona_column cl)
    (Frame.replace_or_append "persona_cluster" (cluster_column cl) cols).

(** The fields that [drop] keeps. *)
Definition kept (k : string) : bool :=
  negb (existsb (String.eqb k) ["persona_cluster"]).

(** [Sample.six_students] with its two new columns, and its export. *)
Definition enriched_six : DataFrame :=
  mkDF 6 (enriched_columns Sample.pairs (columns Sample.six_students)).

Definition exported_six : list record :=
  map (fun r => filter (fun kv => kept (fst kv)) r)
      (Frame.to_records enriched_six).

(** The clustering features are present and hold numbers. *)
Definition numeric_features (df : DataFrame) : Prop :=
  forall f, In f clustering_features ->
    exists c qs, Frame.assoc f (columns df) = Some c
                 /\ MinMaxScaler.to_floats c = Ok qs.

(** The columns of the frame that the record source builds. *)
Definition input_schema : list string :=
  ["student_id"; "name"; "class"; "comprehension"; "attention"; "focus";
   "retention"; "assessment_score"; "engagement_time"].

(* ================================================================== *)
(** ** Decoders and other notions for the further properties *)

(** The number that a run of decimal digits denotes. *)
Definition parse_decimal (s : string) : option nat :=
  option_map Nat.of_uint (NilEmpty.uint_of_string s).

(** What is left of [s] after its prefix [p]. *)
Fixpoint strip_prefix (p s : string) : option string :=
  match p, s with
  | EmptyString, _ => Some s
  | String a p', String b s' =>
      if Ascii.eqb a b then strip_prefix p' s' else None
  | String _ _, EmptyString => None
  end.

(** The number in a student id, after its letter. *)
Definition id_number (s : string) : option nat :=
  match strip_prefix "S" s with
  | Some digits => parse_decimal digits
  | None => None
  end.

(** The number in a display name, after [Student_]. *)
Definition name_number (s : string) : option nat :=
  match strip_prefix "Student_" s with
  | Some digits => parse_decimal digits
  | None => None
  end.

(** Kinds of cells. *)
Definition is_str (v : value) : bool :=
  match v with VStr _ => true | _ => false end.

Definition is_int (v : value) : bool :=
  match v with VInt _ => true | _ => false end.

(** A float with one decimal: a whole number of tenths. *)
Definition one_decimal (v : value) : Prop :=
  exists z : Z, v = VFloat (inject_Z z / 10)%Q.

(** [os.path.exists(public_dir)] in a world. *)
Definition present {G : Generator} (w : World) : bool :=
  existsb (String.eqb public_dir) (dirs w)
  || existsb (fun f => String.eqb public_dir (fst f)) (files w).

(** The shape of the tree lets lines 47-52 write the output: the output
    directory is a directory, or no path of its name exists, and the
    output path is not a directory. *)
Definition writable {G : Generator} (w : World) : bool :=
  (existsb (String.eqb public_dir) (dirs w) || negb (present w))
  && negb (existsb (String.eqb output_path) (dirs w)).

(** The world after a successful run of lines 47-52 that writes [out]. *)
Definition exported_world {G : Generator} (w : World) (out : list record)
  : World :=
  mkWorld (np_random w)
          (if present w then dirs w else public_dir :: dirs w)
          ((output_path, out)
             :: filter (fun f => negb (String.eqb output_path (fst f)))
                       (files w)).

(* ================================================================== *)
(** * Properties *)

(** ** The assessment score *)

Section ScoreFacts.

Local Open Scope Q_scope.

Lemma astype_int_inject (z : Z) : Np.astype_int (inject_Z z) = z.
Proof.
  unfold Np.astype_int.
  destruct (Qle_bool 0 (inject_Z z)).
  - apply Qfloor_Z.
  - apply Qceiling_Z.
Qed.

Lemma astype_int_compat (p q : Q) : p == q -> Np.astype_int p = Np.astype_int q.
Proof.
  intros E. unfold Np.astype_int.
  rewrite (Qleb_comp 0 0 (Qeq_refl 0) p q E).
  now rewrite (Qfloor_comp p q E), (Qceiling_comp p q E).
Qed.

Lemma clip_inject (r lo hi : Z) :
  Np.clip (inject_Z r) (inject_Z lo) (inject_Z hi)
  == inject_Z (Z.min (Z.max r lo) hi).
Proof.
  unfold Np.clip.
  assert (M : Qmax (inject_Z r) (inject_Z lo) == inject_Z (Z.max r lo)).
  { destruct (Z.max_spec r lo) as [[L E] | [L E]]; rewrite E.
    - apply Q.max_r. rewrite <- Zle_Qle. lia.
    - apply Q.max_l. rewrite <- Zle_Qle. lia. }
  rewrite M.
  destruct (Z.min_spec (Z.max r lo) hi) as [[L E] | [L E]]; rewrite E.
  - apply Q.min_l. rewrite <- Zle_Qle. lia.
  - apply Q.min_r. rewrite <- Zle_Qle. lia.
Qed.

Lemma clamp_score_eq (s : Q) :
  clamp_score s = Z.min (Z.max (Np.round_half_even s) 0) 100.
Proof.
  unfold clamp_score, Np.round.
  transitivity
    (Np.astype_int (inject_Z (Z.min (Z.max (Np.round_half_even s) 0) 100))).
  - apply astype_int_compat. exact (clip_inject (Np.round_half_even s) 0 100).
  - apply astype_int_inject.
Qed.

(** The rounding step moves a score by at most one half. *)
Lemma round_half_even_close (q : Q) :
  inject_Z (Np.round_half_even q) - (1 # 2) <= q
  /\ q <= inject_Z (Np.round_half_even q) + (1 # 2).
Proof.
  unfold Np.round_half_even.
  pose proof (Qfloor_le q) as Hlo.
  pose proof (Qlt_floor q) as Hhi.
  rewrite inject_Z_plus in Hhi. change (inject_Z 1) with 1 in Hhi.
  destruct (Qcompare (q - inject_Z (Qfloor q)) (1 # 2)) eqn:E.
  - apply Qeq_alt in E.
    destruct (Z.even (Qfloor q)); rewrite ?inject_Z_plus;
      change (inject_Z 1) with 1; split; lra.
  - apply Qlt_alt in E. split; lra.
  - apply Qgt_alt in E. rewrite inject_Z_plus. change (inject_Z 1) with 1.
    split; lra.
Qed.

End ScoreFacts.

(** The derived scores: one per raw score, each the rounded raw score
    clamped into [0, 100]. *)
Lemma assessment_score_spec :
  forall raw : list Q,
    List.length (assessment_score raw) = List.length raw
    /\ Forall (fun z => (0 <= z <= 100)%Z) (assessment_score raw)
    /\ forall i s, nth_error raw i = Some s ->
         nth_error (assessment_score raw) i
         = Some (Z.min (Z.max (Np.round_half_even s) 0) 100).
Proof.
  intros raw. unfold assessment_score. split; [apply length_map|]. split.
  - apply Forall_forall. intros z Hz.
    apply in_map_iff in Hz. destruct Hz as [s [<- _]].
    rewrite clamp_score_eq. lia.
  - intros i s H. rewrite nth_error_map, H. simpl.
    now rewrite clamp_score_eq.
Qed.

(** ** Min-max scaling *)

Section ScalerFacts.

Local Open Scope Q_scope.
Import MinMaxScaler.

Lemma nth_error_rows (n : nat) (cols : list (list Q)) (i : nat) :
  (i < n)%nat ->
  nth_error (rows n cols) i = Some (map (fun c => nth i c 0) cols).
Proof.
  intros H. unfold rows. rewrite nth_error_map, nth_error_seq.
  apply Nat.ltb_lt in H. now rewrite H.
Qed.

Lemma length_rows (n : nat) (cols : list (list Q)) :
  List.length (rows n cols) = n.
Proof. unfold rows. now rewrite length_map, length_seq. Qed.

End ScalerFacts.

(** ** Min-max scaling in binary64 *)

Section Scaler64Facts.

Import PrimFloat.
Import MinMaxScaler64.

Lemma within_all_holds (kind : feature_kind) : within_all kind = true.
Proof. destruct kind; vm_compute; reflexivity. Qed.

Lemma order_kept_holds (kind : feature_kind) : order_kept kind = true.
Proof. destruct kind; vm_compute; reflexivity. Qed.

Lemma in_grid (kind : feature_kind) (k : Z) :
  in_range kind k -> In k (grid kind).
Proof.
  intros H. unfold grid. destruct kind; simpl in H;
    apply in_map_iff; exists (Z.to_nat k);
    (split; [lia | apply in_seq; lia]).
Qed.

Lemma cell_ltb (kind : feature_kind) (a b : Z) :
  in_range kind a -> in_range kind b ->
  ltb (cell kind a) (cell kind b) = (a <? b)%Z.
Proof.
  intros Ha Hb. pose proof (order_kept_holds kind) as H.
  unfold order_kept in H. cbv zeta in H. rewrite forallb_forall in H.
  specialize (H a (in_grid kind a Ha)). rewrite forallb_forall in H.
  specialize (H b (in_grid kind b Hb)). now apply Bool.eqb_prop in H.
Qed.

Lemma in_range_min (kind : feature_kind) (a b : Z) :
  in_range kind a -> in_range kind b -> in_range kind (Z.min a b).
Proof. destruct kind; simpl; lia. Qed.

Lemma in_range_max (kind : feature_kind) (a b : Z) :
  in_range kind a -> in_range kind b -> in_range kind (Z.max a b).
Proof. destruct kind; simpl; lia. Qed.

Lemma fold_min_cell (kind : feature_kind) (ks : list Z) :
  Forall (in_range kind) ks ->
  forall k, in_range kind k ->
    fold_left (fun m y => if ltb y m then y else m) (map (cell kind) ks)
              (cell kind k)
    = cell kind (fold_left Z.min ks k)
    /\ in_range kind (fold_left Z.min ks k).
Proof.
  induction 1 as [|a ks Ha Hks IH]; intros k Hk; simpl; [auto|].
  rewrite (cell_ltb kind a k Ha Hk).
  replace (if (a <? k)%Z then cell kind a else cell kind k)
    with (cell kind (Z.min k a)).
  - apply IH. now apply in_range_min.
  - destruct (Z.ltb_spec a k); f_equal; lia.
Qed.

Lemma fold_max_cell (kind : feature_kind) (ks : list Z) :
  Forall (in_range kind) ks ->
  forall k, in_range kind k ->
    fold_left (fun m y => if ltb m y then y else m) (map (cell kind) ks)
              (cell kind k)
    = cell kind (fold_left Z.max ks k)
    /\ in_range kind (fold_left Z.max ks k).
Proof.
  induction 1 as [|a ks Ha Hks IH]; intros k Hk; simpl; [auto|].
  rewrite (cell_ltb kind k a Hk Ha).
  replace (if (k <? a)%Z then cell kind a else cell kind k)
    with (cell kind (Z.max k a)).
  - apply IH. now apply in_range_max.
  - destruct (Z.ltb_spec k a); f_equal; lia.
Qed.

Lemma fold_min_le (ks : list Z) :
  forall k, (fold_left Z.min ks k <= k)%Z
            /\ forall y, In y ks -> (fold_left Z.min ks k <= y)%Z.
Proof.
  induction ks as [|a ks IH]; intros k; simpl; [split; [lia | tauto]|].
  destruct (IH (Z.min k a)) as [H1 H2]. split; [lia|].
  intros y [<- | Hy]; [lia | now apply H2].
Qed.

Lemma fold_max_ge (ks : list Z) :
  forall k, (k <= fold_left Z.max ks k)%Z
            /\ forall y, In y ks -> (y <= fold_left Z.max ks k)%Z.
Proof.
  induction ks as [|a ks IH]; intros k; simpl; [split; [lia | tauto]|].
  destruct (IH (Z.max k a)) as [H1 H2]. split; [lia|].
  intros y [<- | Hy]; [lia | now apply H2].
Qed.

(** The least and the greatest value of a feature, in binary64, are the
    conversions of its least and greatest integer. *)
Lemma data_min_max_cell (kind : feature_kind) (ks : list Z) (k : Z) :
  Forall (in_range kind) ks -> In k ks ->
  data_min (map (cell kind) ks) = cell kind (zmin ks)
  /\ data_max (map (cell kind) ks) = cell kind (zmax ks)
  /\ in_range kind (zmin ks) /\ in_range kind (zmax ks)
  /\ (zmin ks <= k <= zmax ks)%Z.
Proof.
  intros HF Hin. destruct ks as [|a ks]; [destruct Hin|].
  inversion HF as [|? ? Ha Hks]; subst.
  destruct (fold_min_cell kind ks Hks a Ha) as [E1 R1].
  destruct (fold_max_cell kind ks Hks a Ha) as [E2 R2].
  destruct (fold_min_le ks a) as [L1 L2].
  destruct (fold_max_ge ks a) as [U1 U2].
  simpl. split; [exact E1|]. split; [exact E2|].
  split; [exact R1|]. split; [exact R2|].
  destruct Hin as [<- | Hin]; [lia|].
  split; [now apply L2 | now apply U2].
Qed.

Lemma within_holds (kind : feature_kind) (lo hi x : Z) :
  in_range kind lo -> in_range kind hi -> in_range kind x ->
  (lo <= x <= hi)%Z -> within kind lo hi x = true.
Proof.
  intros Hlo Hhi Hx Hle. pose proof (within_all_holds kind) as H.
  unfold within_all in H. cbv zeta in H. rewrite forallb_forall in H.
  specialize (H lo (in_grid kind lo Hlo)). rewrite forallb_forall in H.
  specialize (H hi (in_grid kind hi Hhi)).
  cbv zeta in H.
  destruct (Z.leb_spec lo hi); [|lia].
  rewrite forallb_forall in H.
  specialize (H x (in_grid kind x Hx)).
  destruct (Z.leb_spec lo x); [|lia].
  destruct (Z.leb_spec x hi); [|lia].
  exact H.
Qed.

End Scaler64Facts.

(** C3, as the script has it.  The scaler computes in binary64, value
    times scale plus offset, the scale being the reciprocal of the range of
    the feature and the offset minus the least value times the scale.  For
    a feature of whole values between 0 and 100, or of tenths between 5.0
    and 20.0, given by its integers [ks]: the least and the greatest value
    are those of the integers; every scaled value is at least 0 and at
    most 1 + 2^-47; a constant feature is sent to 0 and so is the least
    value of any feature; and when the feature is not constant the scaled
    value is within 2^-45 of the formula of the specification evaluated in
    binary64. *)
Theorem min_max_binary64 :
  forall (kind : MinMaxScaler64.feature_kind) (ks : list Z) (k : Z),
    Forall (MinMaxScaler64.in_range kind) ks ->
    In k ks ->
    let c := map (MinMaxScaler64.cell kind) ks in
    let x := MinMaxScaler64.cell kind k in
    let v := MinMaxScaler64.transform c x in
    In v (MinMaxScaler64.transform_column c)
    /\ MinMaxScaler64.data_min c
       = MinMaxScaler64.cell kind (MinMaxScaler64.zmin ks)
    /\ MinMaxScaler64.data_max c
       = MinMaxScaler64.cell kind (MinMaxScaler64.zmax ks)
    /\ (MinMaxScaler64.zmin ks <= k <= MinMaxScaler64.zmax ks)%Z
    /\ PrimFloat.leb PrimFloat.zero v = true
    /\ PrimFloat.leb v MinMaxScaler64.upper_bound = true
    /\ (MinMaxScaler64.zmax ks = MinMaxScaler64.zmin ks ->
        PrimFloat.eqb v PrimFloat.zero = true)
    /\ (k = MinMaxScaler64.zmin ks -> PrimFloat.eqb v PrimFloat.zero = true)
    /\ (MinMaxScaler64.zmax ks <> MinMaxScaler64.zmin ks ->
        PrimFloat.leb
          (PrimFloat.abs
             (PrimFloat.sub v (MinMaxScaler64.spec_normalized c x)))
          MinMaxScaler64.tolerance = true).
Proof.
  intros kind ks k HF Hin c x v.
  destruct (data_min_max_cell kind ks k HF Hin) as [Emin [Emax [Rlo [Rhi Hle]]]].
  assert (Rk : MinMaxScaler64.in_range kind k)
    by (rewrite Forall_forall in HF; now apply HF).
  pose proof (within_holds kind _ _ _ Rlo Rhi Rk Hle) as W.
  unfold MinMaxScaler64.within, MinMaxScaler64.checked in W.
  assert (Ev : v = PrimFloat.add
                     (PrimFloat.mul x
                        (MinMaxScaler64.scale_of
                           (MinMaxScaler64.cell kind (MinMaxScaler64.zmin ks))
                           (MinMaxScaler64.cell kind (MinMaxScaler64.zmax ks))))
                     (MinMaxScaler64.min_of
                        (MinMaxScaler64.cell kind (MinMaxScaler64.zmin ks))
                        (MinMaxScaler64.cell kind (MinMaxScaler64.zmax ks)))).
  { unfold v, MinMaxScaler64.transform, MinMaxScaler64.scale_,
      MinMaxScaler64.min_. unfold c. now rewrite Emin, Emax. }
  cbv zeta in W. fold x in W. rewrite <- Ev in W.
  apply andb_prop in W. destruct W as [W W4].
  apply andb_prop in W. destruct W as [W W3].
  apply andb_prop in W. destruct W as [W1 W2].
  split; [unfold MinMaxScaler64.transform_column; apply in_map;
          unfold c, x; now apply in_map|].
  split; [exact Emin|]. split; [exact Emax|]. split; [exact Hle|].
  split; [exact W1|]. split; [exact W2|].
  split; [|split].
  - intros E. rewrite <- E, Z.eqb_refl in W3. exact W3.
  - intros E. rewrite <- E, Z.eqb_refl in W4. exact W4.
  - intros N. apply not_eq_sym in N. apply Z.eqb_neq in N.
    rewrite N in W3. unfold MinMaxScaler64.spec_normalized.
    unfold c. rewrite Emin, Emax. exact W3.
Qed.

Lemma min_max_binary64_witness :
  Forall (MinMaxScaler64.in_range MinMaxScaler64.Metric) [45; 89; 60]%Z
  /\ In 89%Z [45; 89; 60]%Z
  /\ PrimFloat.leb PrimFloat.zero
       (MinMaxScaler64.transform
          (map (MinMaxScaler64.cell MinMaxScaler64.Metric) [45; 89; 60]%Z)
          (MinMaxScaler64.cell MinMaxScaler64.Metric 89)) = true
  /\ PrimFloat.leb
       (MinMaxScaler64.transform
          (map (MinMaxScaler64.cell MinMaxScaler64.Metric) [45; 89; 60]%Z)
          (MinMaxScaler64.cell MinMaxScaler64.Metric 89))
       MinMaxScaler64.upper_bound = true.
Proof.
  assert (HF : Forall (MinMaxScaler64.in_range MinMaxScaler64.Metric)
                      [45; 89; 60]%Z)
    by (repeat constructor; simpl; lia).
  assert (Hin : In 89%Z [45; 89; 60]%Z) by (simpl; tauto).
  split; [exact HF|]. split; [exact Hin|].
  pose proof (min_max_binary64 MinMaxScaler64.Metric [45; 89; 60]%Z 89%Z
                HF Hin) as P.
  cbv zeta in P.
  destruct P as [_ [_ [_ [_ [P1 [P2 _]]]]]].
  split; [exact P1 | exact P2].
Defined.

(** The greatest of the values 45, 89 and 60 is sent to 1 + 2^-52. *)
Example scaled_focus_maximum :
  MinMaxScaler64.transform (map MinMaxScaler64.of_int [45; 89; 60]%Z)
                           (MinMaxScaler64.of_int 89)
  = PrimFloat.add PrimFloat.one MinMaxScaler64.eps.
Proof. vm_compute. reflexivity. Qed.

(** C3, as the specification words it, fails: of the values 45, 89 and
    60 the greatest is sent above 1, where the formula gives 1. *)
Lemma scaled_value_exceeds_one :
  ~ MinMaxScaler64.normalized_as_specified
      (map MinMaxScaler64.of_int [45; 89; 60]%Z).
Proof.
  intros H.
  destruct (H (MinMaxScaler64.of_int 89)) as [_ [_ [_ H1]]];
    [simpl; tauto|].
  rewrite scaled_focus_maximum in H1. vm_compute in H1. discriminate H1.
Qed.

(** ** Frames *)

Section FrameFacts.

Import Frame.

Lemma assoc_set_same (k : string) (c : column) l :
  assoc k (replace_or_append k c l) = Some c.
Proof.
  induction l as [|[k' c'] l IH]; simpl.
  - now rewrite String.eqb_refl.
  - destruct (String.eqb k k') eqn:E; simpl; rewrite E; auto.
Qed.

Lemma assoc_set_other (k k' : string) (c : column) l :
  k' <> k -> assoc k' (replace_or_append k c l) = assoc k' l.
Proof.
  intros N. induction l as [|[k0 c0] l IH]; simpl.
  - apply String.eqb_neq in N. now rewrite N.
  - destruct (String.eqb k k0) eqn:E; simpl.
    + apply String.eqb_eq in E. subst k0.
      apply String.eqb_neq in N. now rewrite N.
    + now rewrite IH.
Qed.

Lemma names_set (k : string) (c : column) l :
  map fst (replace_or_append k c l)
  = if existsb (String.eqb k) (map fst l) then map fst l
    else map fst l ++ [k].
Proof.
  induction l as [|[k0 c0] l IH]; simpl; [reflexivity|].
  destruct (String.eqb k k0) eqn:E; simpl; [reflexivity|].
  rewrite IH. now destruct (existsb (String.eqb k) (map fst l)).
Qed.

Lemma assoc_map_snd {A B} (f : A -> B) (k : string) (l : list (string * A)) :
  assoc k (map (fun kc => (fst kc, f (snd kc))) l) = option_map f (assoc k l).
Proof.
  induction l as [|[k0 c0] l IH]; simpl; [reflexivity|].
  now destruct (String.eqb k k0).
Qed.

Lemma assoc_row (df : DataFrame) (i : nat) (k : string) :
  assoc k (row df i) = option_map (fun c => nth i c VNaN) (assoc k (columns df)).
Proof. apply (assoc_map_snd (fun c => nth i c VNaN)). Qed.

Lemma assoc_filter_keep {A} (p : string -> bool) (k : string)
      (l : list (string * A)) :
  p k = true -> assoc k (filter (fun kc => p (fst kc)) l) = assoc k l.
Proof.
  intros Hk. induction l as [|[k0 c0] l IH]; simpl; [reflexivity|].
  destruct (p k0) eqn:P; simpl.
  - now rewrite IH.
  - destruct (String.eqb k k0) eqn:E; [|exact IH].
    apply String.eqb_eq in E. congruence.
Qed.

Lemma assoc_filter_gone {A} (p : string -> bool) (k : string)
      (l : list (string * A)) :
  p k = false -> assoc k (filter (fun kc => p (fst kc)) l) = None.
Proof.
  intros Hk. induction l as [|[k0 c0] l IH]; simpl; [reflexivity|].
  destruct (p k0) eqn:P; simpl; [|exact IH].
  destruct (String.eqb k k0) eqn:E; [|exact IH].
  apply String.eqb_eq in E. congruence.
Qed.

Lemma assoc_In_names {A} (k : string) (l : list (string * A)) :
  In k (map fst l) <-> exists c, assoc k l = Some c.
Proof.
  induction l as [|[k0 c0] l IH]; simpl.
  - split; [tauto | intros [c H]; discriminate].
  - destruct (String.eqb k k0) eqn:E.
    + apply String.eqb_eq in E. split; eauto.
    + apply String.eqb_neq in E. rewrite <- IH. split.
      * intros [H | H]; [congruence | assumption].
      * auto.
Qed.

Lemma has_column_In (df : DataFrame) (k : string) :
  has_column df k = true <-> In k (names df).
Proof.
  unfold has_column, names. rewrite assoc_In_names.
  destruct (assoc k (columns df)); split; eauto; try discriminate.
  intros [c H]. discriminate.
Qed.

Lemma nth_error_to_records (df : DataFrame) (i : nat) :
  nth_error (to_records df) i
  = if Nat.ltb i (nrows df) then Some (row df i) else None.
Proof.
  unfold to_records. rewrite nth_error_map, nth_error_seq.
  now destruct (Nat.ltb i (nrows df)).
Qed.

Lemma length_to_records (df : DataFrame) :
  List.length (to_records df) = nrows df.
Proof. unfold to_records. now rewrite length_map, length_seq. Qed.

(** Row [i] of a frame without some columns is row [i] without those
    fields. *)
Lemma row_filter (n : nat) (p : string -> bool) (cols : list (string * column))
      (i : nat) :
  row (mkDF n (filter (fun kc => p (fst kc)) cols)) i
  = filter (fun kv => p (fst kv)) (row (mkDF n cols) i).
Proof.
  unfold row. simpl. induction cols as [|[k c] cols IH]; simpl; [reflexivity|].
  destruct (p k); simpl; now rewrite IH.
Qed.

Lemma names_row (df : DataFrame) (i : nat) : map fst (row df i) = names df.
Proof. unfold row, names. rewrite map_map. reflexivity. Qed.

End FrameFacts.

(** ** K-means *)

Section KMeansFacts.

Local Open Scope Q_scope.
Import KMeans.

Lemma length_assign (X C : list vector) :
  List.length (assign X C) = List.length X.
Proof. apply length_map. Qed.

(** The scan keeps the first index of least distance.  [D] names the
    distance of each index. *)
Lemma argmin_from_spec (x : vector) (D : nat -> Q) (cs : list vector) :
  forall (i best : nat) (bestd : Q),
    (forall k c, nth_error cs k = Some c -> sq_dist x c = D (i + k)%nat) ->
    (best < i)%nat ->
    bestd = D best ->
    (forall j, (j < i)%nat -> bestd <= D j) ->
    (forall j, (j < best)%nat -> bestd < D j) ->
    let r := argmin_from x cs i best bestd in
    (r < i + List.length cs)%nat
    /\ (forall j, (j < i + List.length cs)%nat -> D r <= D j)
    /\ (forall j, (j < r)%nat -> D r < D j).
Proof.
  induction cs as [|c cs IH]; intros i best bestd HD Hb Hd Hle Hlt; simpl.
  - subst bestd. rewrite Nat.add_0_r. repeat split; auto.
  - assert (Hc : sq_dist x c = D i).
    { rewrite (HD 0%nat c eq_refl). f_equal. lia. }
    assert (HD' : forall k c0, nth_error cs k = Some c0 ->
                               sq_dist x c0 = D (S i + k)%nat).
    { intros k c0 H. rewrite (HD (S k) c0 H). f_equal. lia. }
    replace (i + S (List.length cs))%nat with (S i + List.length cs)%nat by lia.
    destruct (Qle_bool bestd (sq_dist x c)) eqn:E.
    + apply Qle_bool_iff in E. apply IH; auto.
      intros j Hj. destruct (Nat.eq_dec j i) as [-> | N].
      * now rewrite <- Hc.
      * apply Hle. lia.
    + assert (L : sq_dist x c < bestd).
      { apply Qnot_le_lt. intros H. apply Qle_bool_iff in H. congruence. }
      apply IH; auto.
      * intros j Hj. rewrite Hc. destruct (Nat.eq_dec j i) as [-> | N].
        -- apply Qle_refl.
        -- apply Qlt_le_weak. eapply Qlt_le_trans; [rewrite <- Hc; exact L|].
           apply Hle. lia.
      * intros j Hj. eapply Qlt_le_trans; [exact L | apply Hle; lia].
Qed.

(** [nearest] returns the lowest index among the closest centroids. *)
Lemma nearest_spec (x : vector) (C : list vector) :
  C <> [] ->
  let r := nearest x C in
  (r < List.length C)%nat
  /\ (forall j, (j < List.length C)%nat ->
        sq_dist x (nth r C []) <= sq_dist x (nth j C []))
  /\ (forall j, (j < r)%nat ->
        sq_dist x (nth r C []) < sq_dist x (nth j C [])).
Proof.
  destruct C as [|c cs]; [congruence|]. intros _.
  unfold nearest.
  apply (argmin_from_spec x (fun j => sq_dist x (nth j (c :: cs) [])) cs).
  - intros k c0 H. simpl. symmetry. f_equal. now apply nth_error_nth.
  - lia.
  - reflexivity.
  - intros j Hj. assert (j = 0)%nat as -> by lia. apply Qle_refl.
  - intros j Hj. lia.
Qed.

Lemma assign_range (X C : list vector) :
  C <> [] -> Forall (fun a => (a < List.length C)%nat) (assign X C).
Proof.
  intros HC. apply Forall_forall. intros a Ha.
  apply in_map_iff in Ha. destruct Ha as [x [<- _]].
  now apply nearest_spec.
Qed.

Lemma update_centers_eq (C : list vector) A X :
  update_centers C A X
  = map (center_rule A X) (combine (seq 0 (List.length C)) C).
Proof. reflexivity. Qed.

Lemma length_indexed (C : list vector) :
  forall s, List.length (combine (seq s (List.length C)) C) = List.length C.
Proof. induction C as [|c C IH]; intros s; simpl; auto. Qed.

Lemma length_update_centers (C : list vector) A X :
  List.length (update_centers C A X) = List.length C.
Proof. rewrite update_centers_eq, length_map. apply length_indexed. Qed.

Lemma nth_error_indexed (C : list vector) :
  forall s j c, nth_error C j = Some c ->
    nth_error (combine (seq s (List.length C)) C) j = Some ((s + j)%nat, c).
Proof.
  induction C as [|c0 C IH]; intros s j c H; [destruct j; discriminate|].
  destruct j as [|j]; simpl in *.
  - inversion H. now rewrite Nat.add_0_r.
  - rewrite (IH (S s) j c H). f_equal. f_equal. lia.
Qed.

Lemma nth_error_update_centers (C : list vector) A X (j : nat) (c : vector) :
  nth_error C j = Some c ->
  nth_error (update_centers C A X) j = Some (center_rule A X (j, c)).
Proof.
  intros H. rewrite update_centers_eq, nth_error_map.
  now rewrite (nth_error_indexed C 0 j c H).
Qed.

Lemma center_rule_idem A X (j : nat) (c : vector) :
  center_rule A X (j, center_rule A X (j, c)) = center_rule A X (j, c).
Proof. unfold center_rule. simpl. now destruct (members j A X). Qed.

Lemma update_indexed_idem A X (C : list vector) :
  forall s,
    map (center_rule A X)
        (combine (seq s (List.length C))
                 (map (center_rule A X) (combine (seq s (List.length C)) C)))
    = map (center_rule A X) (combine (seq s (List.length C)) C).
Proof.
  induction C as [|c C IH]; intros s; simpl; [reflexivity|].
  now rewrite center_rule_idem, IH.
Qed.

(** Recomputing the centroids of an unchanged assignment changes
    nothing. *)
Lemma update_centers_idem (C : list vector) A X :
  update_centers (update_centers C A X) A X = update_centers C A X.
Proof.
  rewrite (update_centers_eq (update_centers C A X)).
  rewrite length_update_centers, update_centers_eq.
  apply update_indexed_idem.
Qed.

Lemma labels_eqb_true (a b : list nat) : labels_eqb a b = true -> a = b.
Proof. unfold labels_eqb. destruct (list_eq_dec Nat.eq_dec a b); congruence. Qed.

Lemma lloyd_loop_sound (k : nat) (X : list vector) (fuel : nat) :
  forall (C Cp : list vector) (A : list nat) (it : nat),
    (0 < k)%nat ->
    List.length Cp = k ->
    C = update_centers Cp A X ->
    List.length A = List.length X ->
    Forall (fun a => (a < k)%nat) A ->
    sound k X (lloyd_loop fuel X C A it).
Proof.
  induction fuel as [|fuel IH]; intros C Cp A it Hk HCp HC HA HR;
    assert (LC : List.length C = k)
      by (subst C; now rewrite length_update_centers);
    assert (NE : C <> []) by (intros ->; simpl in LC; lia);
    simpl.
  - constructor; simpl; auto.
    + apply length_assign.
    + rewrite <- LC. now apply assign_range.
  - destruct (labels_eqb (assign X C) A) eqn:E.
    + apply labels_eqb_true in E.
      constructor; simpl.
      * apply length_assign.
      * rewrite <- LC. now apply assign_range.
      * now rewrite length_update_centers.
      * rewrite E at 2. subst C.
        now rewrite update_centers_idem.
    + apply IH with (Cp := C); auto.
      * apply length_assign.
      * rewrite <- LC. now apply assign_range.
Qed.

Lemma lloyd_sound (k max_iter : nat) (X C0 : list vector) :
  (0 < k)%nat -> List.length C0 = k -> sound k X (lloyd max_iter X C0).
Proof.
  intros Hk HC. unfold lloyd.
  apply lloyd_loop_sound with (Cp := C0); auto.
  - apply length_assign.
  - rewrite <- HC. apply assign_range. intros ->. simpl in HC. lia.
Qed.

Context {G : Generator}.

Lemma length_init_centroids (k : nat) (X : list vector) :
  forall chosen g,
    List.length (fst (init_centroids k X chosen g))
    = (List.length chosen + k)%nat.
Proof.
  induction k as [|k IH]; intros chosen g; simpl; [lia|].
  destruct (pick_center X chosen g) as [c g'].
  rewrite IH, length_app. simpl. lia.
Qed.

Lemma restarts_ind (P : fit_result -> Prop) (k max_iter : nat) (X : list vector) :
  (forall C0, List.length C0 = k -> P (lloyd max_iter X C0)) ->
  forall n g best, P best -> P (restarts n k max_iter X g best).
Proof.
  intros HP. induction n as [|n IH]; intros g best Hb; simpl; [exact Hb|].
  pose proof (length_init_centroids k X [] g) as L.
  destruct (init_centroids k X [] g) as [C0 g']. simpl in L.
  apply IH.
  destruct (Qle_bool (inertia X best) (inertia X (lloyd max_iter X C0)));
    auto.
Qed.

Lemma fit_ind (P : fit_result -> Prop) (k max_iter : nat) (X : list vector) :
  (forall C0, List.length C0 = k -> P (lloyd max_iter X C0)) ->
  forall seed n_init, P (fit k seed n_init max_iter X).
Proof.
  intros HP seed n_init. unfold fit.
  pose proof (length_init_centroids k X [] (RandomState seed)) as L.
  destruct (init_centroids k X [] (RandomState seed)) as [C0 g]. simpl in L.
  apply restarts_ind; auto.
Qed.

Lemma fit_sound (k : nat) (seed : Z) (n_init max_iter : nat) (X : list vector) :
  (0 < k)%nat -> sound k X (fit k seed n_init max_iter X).
Proof.
  intros Hk. apply fit_ind. intros C0 HC. now apply lloyd_sound.
Qed.

(** Restarts from one and the same initial centroids change nothing. *)
Lemma restarts_same (k max_iter : nat) (X C0 : list vector) :
  (forall g, fst (init_centroids k X [] g) = C0) ->
  forall n g,
    restarts n k max_iter X g (lloyd max_iter X C0) = lloyd max_iter X C0.
Proof.
  intros Hinit. induction n as [|n IH]; intros g; simpl; [reflexivity|].
  specialize (Hinit g).
  destruct (init_centroids k X [] g) as [C g']. simpl in Hinit. subst C.
  assert (R : Qle_bool (inertia X (lloyd max_iter X C0))
                       (inertia X (lloyd max_iter X C0)) = true)
    by (apply Qle_bool_iff, Qle_refl).
  rewrite R. apply IH.
Qed.

End KMeansFacts.

(** ** Labelling and export *)

Section LabelFacts.

Import Frame.

Lemma kept_iff (k : string) : kept k = true <-> k <> "persona_cluster".
Proof.
  unfold kept. simpl. rewrite orb_false_r, negb_true_iff.
  apply String.eqb_neq.
Qed.

Lemma nth_error_persona_column (cl : list nat) (i c : nat) :
  nth_error cl i = Some c ->
  nth_error (persona_column cl) i = Some (persona_of c).
Proof.
  intros H. unfold persona_column, series_map, cluster_column.
  rewrite map_map, nth_error_map, H. reflexivity.
Qed.

Lemma length_persona_column (cl : list nat) :
  List.length (persona_column cl) = List.length cl.
Proof.
  unfold persona_column, series_map, cluster_column.
  now rewrite !length_map.
Qed.

Lemma label_with_inv (cl : list nat) (df e : DataFrame) :
  label_with cl df = Ok e ->
  List.length cl = nrows df
  /\ e = mkDF (nrows df) (enriched_columns cl (columns df)).
Proof.
  unfold label_with, setitem. unfold cluster_column at 1.
  rewrite length_map.
  destruct (Nat.eqb (List.length cl) (nrows df)) eqn:E; [|discriminate].
  apply Nat.eqb_eq in E. simpl.
  unfold getitem. simpl. rewrite assoc_set_same. simpl.
  fold (persona_column cl). rewrite length_persona_column.
  apply Nat.eqb_eq in E. rewrite E. intros H. inversion H.
  apply Nat.eqb_eq in E. auto.
Qed.

Lemma label_with_ok (cl : list nat) (df : DataFrame) :
  List.length cl = nrows df ->
  label_with cl df = Ok (mkDF (nrows df) (enriched_columns cl (columns df))).
Proof.
  intros L. unfold label_with, setitem. unfold cluster_column at 1.
  rewrite length_map. apply Nat.eqb_eq in L. rewrite L. simpl.
  unfold getitem. simpl. rewrite assoc_set_same. simpl.
  fold (persona_column cl). rewrite length_persona_column, L.
  reflexivity.
Qed.

(** The export of a frame that has the cluster column: its rows, in
    order, each without that one field. *)
Lemma df_output_ok (e : DataFrame) :
  has_column e "persona_cluster" = true ->
  df_output e
  = Ok (map (fun r => filter (fun kv => kept (fst kv)) r) (to_records e)).
Proof.
  intros H. unfold df_output, drop. simpl. rewrite H. simpl.
  f_equal. unfold to_records. simpl. rewrite map_map.
  apply map_ext. intros i.
  change (row (mkDF (nrows e)
                    (filter (fun kc => kept (fst kc)) (columns e))) i
          = filter (fun kv => kept (fst kv)) (row e i)).
  rewrite (row_filter (nrows e) kept (columns e) i).
  now destruct e.
Qed.

Lemma df_output_inv (e : DataFrame) (out : list record) :
  df_output e = Ok out ->
  out = map (fun r => filter (fun kv => kept (fst kv)) r) (to_records e).
Proof.
  intros H. destruct (has_column e "persona_cluster") eqn:E.
  - rewrite (df_output_ok e E) in H. now inversion H.
  - unfold df_output, drop in H. simpl in H. rewrite E in H. discriminate.
Qed.

Lemma enriched_has_cluster (cl : list nat) n cols :
  has_column (mkDF n (enriched_columns cl cols)) "persona_cluster" = true.
Proof.
  unfold has_column, enriched_columns. simpl.
  rewrite assoc_set_other by discriminate.
  now rewrite assoc_set_same.
Qed.

(** Record [i] of the export of a labelled frame. *)
Lemma exported_record (cl : list nat) (df e : DataFrame) (out : list record)
      (i : nat) (r : record) :
  label_with cl df = Ok e ->
  df_output e = Ok out ->
  nth_error out i = Some r ->
  (i < nrows df)%nat
  /\ r = filter (fun kv => kept (fst kv)) (row e i)
  /\ e = mkDF (nrows df) (enriched_columns cl (columns df)).
Proof.
  intros He Ho Hr. destruct (label_with_inv cl df e He) as [L Ee].
  apply df_output_inv in Ho. subst out.
  rewrite nth_error_map, nth_error_to_records in Hr.
  assert (N : nrows e = nrows df) by (subst e; reflexivity).
  rewrite N in Hr.
  destruct (Nat.ltb i (nrows df)) eqn:Lt; [|discriminate].
  apply Nat.ltb_lt in Lt. simpl in Hr. inversion Hr. auto.
Qed.

Lemma exported_persona (cl : list nat) (df e : DataFrame) (out : list record)
      (i c : nat) (r : record) :
  label_with cl df = Ok e ->
  df_output e = Ok out ->
  nth_error out i = Some r ->
  nth_error cl i = Some c ->
  assoc "learning_persona" r = Some (persona_of c).
Proof.
  intros He Ho Hr Hc.
  destruct (exported_record cl df e out i r He Ho Hr) as [Hi [-> ->]].
  rewrite (assoc_filter_keep kept) by reflexivity.
  rewrite assoc_row. simpl. unfold enriched_columns.
  rewrite assoc_set_same. simpl. f_equal.
  apply nth_error_nth. now apply nth_error_persona_column.
Qed.

Lemma exported_field (cl : list nat) (df e : DataFrame) (out : list record)
      (i : nat) (r : record) (k : string) :
  label_with cl df = Ok e ->
  df_output e = Ok out ->
  nth_error out i = Some r ->
  k <> "persona_cluster" -> k <> "learning_persona" ->
  assoc k r = assoc k (row df i).
Proof.
  intros He Ho Hr N1 N2.
  destruct (exported_record cl df e out i r He Ho Hr) as [Hi [-> ->]].
  rewrite (assoc_filter_keep kept) by now apply kept_iff.
  rewrite !assoc_row. simpl. unfold enriched_columns.
  now rewrite !assoc_set_other by assumption.
Qed.

Lemma persona_of_cases (c : nat) :
  (c < 3)%nat ->
  persona_of c
  = VStr (match c with
          | 0%nat => "Balanced Average"
          | 1%nat => "High-Skill Achiever"
          | _ => "Low Engagement/Struggler"
          end).
Proof.
  intros H.
  destruct c as [|[|[|c]]]; [reflexivity | reflexivity | reflexivity | lia].
Qed.

End LabelFacts.

(** ** The analysis as a whole *)

Section AnalysisFacts.

Import Frame.
Context {G : Generator}.

Lemma getitem_list_ok (df : DataFrame) (ks : list string) :
  (forall k, In k ks -> has_column df k = true) ->
  getitem_list df ks
  = Ok (map (fun k => (k, match assoc k (columns df) with
                          | Some c => c
                          | None => []
                          end)) ks).
Proof.
  intros H. unfold getitem_list.
  replace (filter (fun k => negb (has_column df k)) ks) with (@nil string);
    [reflexivity|].
  symmetry. induction ks as [|k ks IH]; simpl; [reflexivity|].
  rewrite (H k) by (left; reflexivity). simpl.
  apply IH. intros k' Hk'. apply H. now right.
Qed.

Lemma getitem_list_missing (df : DataFrame) (ks : list string) (k : string) :
  In k ks -> has_column df k = false ->
  exists missing,
    getitem_list df ks = Raise (KeyError missing) /\ In k missing.
Proof.
  intros Hin Hk. unfold getitem_list.
  assert (M : In k (filter (fun k => negb (has_column df k)) ks)).
  { apply filter_In. split; [assumption | now rewrite Hk]. }
  destruct (filter (fun k => negb (has_column df k)) ks) as [|m ms] eqn:E.
  - destruct M.
  - exists (m :: ms). auto.
Qed.

Lemma to_numeric_selected (df : DataFrame) (ks : list string) :
  (forall f, In f ks ->
     exists c qs, assoc f (columns df) = Some c
                  /\ MinMaxScaler.to_floats c = Ok qs) ->
  exists cols,
    MinMaxScaler.to_numeric
      (map (fun k => (k, match assoc k (columns df) with
                         | Some c => c
                         | None => []
                         end)) ks) = Ok cols.
Proof.
  induction ks as [|k ks IH]; intros H; simpl; [eauto|].
  destruct (H k (or_introl eq_refl)) as [c [qs [Hc Hq]]].
  destruct IH as [cols Hcols]; [intros f Hf; apply H; now right|].
  rewrite Hc, Hq. simpl. rewrite Hcols. simpl. eauto.
Qed.

Lemma length_df_scaled (df : DataFrame) (X : list vector) :
  df_scaled df = Ok X -> List.length X = nrows df.
Proof.
  unfold df_scaled.
  destruct (getitem_list df clustering_features) as [sel|]; [|discriminate].
  simpl. unfold MinMaxScaler.fit_transform.
  destruct (nrows df) as [|n]; [discriminate|].
  destruct (MinMaxScaler.to_numeric sel) as [cols|]; [|discriminate].
  simpl. intros H. inversion H. apply length_rows.
Qed.

Lemma df_scaled_ok (df : DataFrame) :
  (0 < nrows df)%nat -> numeric_features df -> exists X, df_scaled df = Ok X.
Proof.
  intros Hn Hf. unfold df_scaled.
  rewrite getitem_list_ok.
  - cbn beta iota delta [rbind]. unfold MinMaxScaler.fit_transform.
    destruct (nrows df) as [|n]; [lia|].
    destruct (to_numeric_selected df clustering_features Hf) as [cols ->].
    simpl. eauto.
  - intros k Hk. destruct (Hf k Hk) as [c [_ [Hc _]]].
    unfold has_column. now rewrite Hc.
Qed.

Lemma length_labels (seed : Z) (X : list vector) :
  List.length (KMeans.labels_ (kmeans seed X)) = List.length X.
Proof. apply (fit_sound 3). lia. Qed.

Lemma labels_range (seed : Z) (X : list vector) (i c : nat) :
  nth_error (KMeans.labels_ (kmeans seed X)) i = Some c -> (c < 3)%nat.
Proof.
  intros H. apply nth_error_In in H.
  pose proof (KMeans_range := sound_range _ _ _ (fit_sound 3 seed 10
                                KMeans.default_max_iter X ltac:(lia))).
  rewrite Forall_forall in KMeans_range. now apply KMeans_range.
Qed.

Lemma fit_predict_few (seed : Z) (X : list vector) :
  (List.length X < 3)%nat ->
  KMeans.fit_predict 3 seed 10 KMeans.default_max_iter X
  = Raise (ValueError "n_samples should be >= n_clusters").
Proof.
  intros H. unfold KMeans.fit_predict.
  apply Nat.ltb_lt in H. now rewrite H.
Qed.

Lemma fit_predict_enough (seed : Z) (X : list vector) :
  (3 <= List.length X)%nat ->
  KMeans.fit_predict 3 seed 10 KMeans.default_max_iter X
  = Ok (KMeans.labels_ (kmeans seed X)).
Proof.
  intros H. unfold KMeans.fit_predict.
  apply Nat.ltb_ge in H. now rewrite H.
Qed.

Lemma label_frame_inv (seed : Z) (df e : DataFrame) (X : list vector) :
  label_frame seed df X = Ok e ->
  (3 <= List.length X)%nat
  /\ label_with (KMeans.labels_ (kmeans seed X)) df = Ok e.
Proof.
  unfold label_frame. destruct (Nat.lt_ge_cases (List.length X) 3) as [L|L].
  - rewrite fit_predict_few by exact L. discriminate.
  - rewrite fit_predict_enough by exact L. auto.
Qed.

Lemma label_frame_ok (seed : Z) (df : DataFrame) (X : list vector) :
  (3 <= List.length X)%nat ->
  label_frame seed df X = label_with (KMeans.labels_ (kmeans seed X)) df.
Proof.
  intros L. unfold label_frame. now rewrite fit_predict_enough by exact L.
Qed.

Lemma enrich_inv (seed : Z) (df e : DataFrame) :
  enrich seed df = Ok e ->
  exists X,
    df_scaled df = Ok X
    /\ (3 <= nrows df)%nat
    /\ label_with (KMeans.labels_ (kmeans seed X)) df = Ok e.
Proof.
  unfold enrich.
  destruct (df_scaled df) as [X|] eqn:EX; [|discriminate].
  cbn [rbind]. intros H. apply label_frame_inv in H. destruct H as [L H].
  exists X. rewrite <- (length_df_scaled df X EX). auto.
Qed.

Lemma analysis_inv (seed : Z) (df : DataFrame) (out : list record) :
  analysis seed df = Ok out ->
  exists X e,
    df_scaled df = Ok X
    /\ label_with (KMeans.labels_ (kmeans seed X)) df = Ok e
    /\ df_output e = Ok out.
Proof.
  unfold analysis.
  destruct (enrich seed df) as [e|] eqn:Ee; [|discriminate]. cbn [rbind].
  destruct (enrich_inv seed df e Ee) as [X [HX [_ He]]].
  intros H. exists X, e. auto.
Qed.

Lemma enrich_ok (seed : Z) (df : DataFrame) :
  (3 <= nrows df)%nat -> numeric_features df ->
  exists X,
    df_scaled df = Ok X
    /\ enrich seed df
       = Ok (mkDF (nrows df)
                  (enriched_columns (KMeans.labels_ (kmeans seed X))
                                    (columns df))).
Proof.
  intros Hn Hf.
  destruct (df_scaled_ok df ltac:(lia) Hf) as [X HX].
  exists X. split; [exact HX|].
  pose proof (length_df_scaled df X HX) as LX.
  unfold enrich. rewrite HX. cbn [rbind].
  rewrite label_frame_ok by lia.
  apply label_with_ok. rewrite length_labels. exact LX.
Qed.

Lemma analysis_ok (seed : Z) (df : DataFrame) :
  (3 <= nrows df)%nat -> numeric_features df ->
  exists out, analysis seed df = Ok out.
Proof.
  intros Hn Hf. destruct (enrich_ok seed df Hn Hf) as [X [_ He]].
  unfold analysis. rewrite He. cbn [rbind].
  rewrite df_output_ok by apply enriched_has_cluster. eauto.
Qed.

(** An enriched frame can always be exported. *)
Lemma enrich_output (seed : Z) (df e : DataFrame) :
  enrich seed df = Ok e ->
  exists out, df_output e = Ok out /\ analysis seed df = Ok out.
Proof.
  intros H. destruct (enrich_inv seed df e H) as [X [_ [_ He]]].
  destruct (label_with_inv _ df e He) as [_ Ee].
  assert (Ho : df_output e
               = Ok (map (fun r => filter (fun kv => kept (fst kv)) r)
                         (Frame.to_records e)))
    by (apply df_output_ok; rewrite Ee; apply enriched_has_cluster).
  eexists. split; [exact Ho|].
  unfold analysis. rewrite H. cbn [rbind]. exact Ho.
Qed.

Lemma analysis_raise (seed : Z) (df : DataFrame) (x : exn) :
  analysis seed df = Raise x -> enrich seed df = Raise x.
Proof.
  intros H. destruct (enrich seed df) as [e|y] eqn:He.
  - destruct (enrich_output seed df e He) as [out [_ Ho]]. congruence.
  - unfold analysis in H. rewrite He in H. cbn [rbind] in H.
    inversion H. reflexivity.
Qed.

(** Fewer rows than clusters: the clustering refuses the array. *)
Lemma enrich_few (seed : Z) (df : DataFrame) (X : list vector) :
  df_scaled df = Ok X -> (nrows df < 3)%nat ->
  enrich seed df = Raise (ValueError "n_samples should be >= n_clusters").
Proof.
  intros HX Hn. unfold enrich. rewrite HX. cbn [rbind].
  unfold label_frame. rewrite fit_predict_few; [reflexivity|].
  now rewrite (length_df_scaled df X HX).
Qed.

Lemma length_analysis (seed : Z) (df : DataFrame) (out : list record) :
  analysis seed df = Ok out -> List.length out = nrows df.
Proof.
  intros H. destruct (analysis_inv seed df out H) as [X [e [HX [He Ho]]]].
  apply df_output_inv in Ho. subst out.
  rewrite length_map, length_to_records.
  destruct (label_with_inv _ df e He) as [_ ->]. reflexivity.
Qed.

End AnalysisFacts.

(** ** The sample runs *)

Lemma fit_counter (seed : Z) (n_init max_iter : nat) (X : list vector) :
  KMeans.fit (G:=Sample.counter) 3 seed n_init max_iter X
  = KMeans.lloyd max_iter X (Sample.every_other X).
Proof.
  assert (Hinit : forall g : nat,
             KMeans.init_centroids (G:=Sample.counter) 3 X [] g
             = (Sample.every_other X, S (S (S g))))
    by reflexivity.
  unfold KMeans.fit. rewrite Hinit.
  apply restarts_same. intros g. now rewrite Hinit.
Qed.

Lemma df_scaled_six : df_scaled Sample.six_students = Ok Sample.scaled_six.
Proof. vm_compute. reflexivity. Qed.

Lemma kmeans_six :
  KMeans.fit (G:=Sample.counter) 3 42 10 KMeans.default_max_iter
             Sample.scaled_six
  = Sample.fit_six.
Proof. rewrite fit_counter. vm_compute. reflexivity. Qed.

Lemma labelled_pairs :
  label_with Sample.pairs Sample.six_students = Ok enriched_six.
Proof. exact (label_with_ok Sample.pairs Sample.six_students eq_refl). Qed.

Lemma exported_pairs : df_output enriched_six = Ok exported_six.
Proof. apply df_output_ok. apply enriched_has_cluster. Qed.

Lemma enrich_six :
  enrich (G:=Sample.counter) 42 Sample.six_students = Ok enriched_six.
Proof.
  unfold enrich. rewrite df_scaled_six. cbn [rbind].
  assert (L : (3 <= List.length Sample.scaled_six)%nat).
  { rewrite (length_df_scaled _ _ df_scaled_six). simpl. lia. }
  rewrite (label_frame_ok (G:=Sample.counter) 42 Sample.six_students
                          Sample.scaled_six L).
  unfold kmeans. rewrite kmeans_six.
  exact labelled_pairs.
Qed.

Lemma analysis_six :
  analysis (G:=Sample.counter) 42 Sample.six_students = Ok exported_six.
Proof.
  unfold analysis. rewrite enrich_six. cbn [rbind]. exact exported_pairs.
Qed.

(** ** Personas *)

(** C5. For any array of cluster indices in 0..2, one per row, labelling
    and export succeed, one record is exported per row, and the
    [learning_persona] field of every exported record is one of the three
    fixed strings. *)
Theorem persona_total :
  forall (cl : list nat) (df : DataFrame),
    List.length cl = nrows df ->
    Forall (fun c => (c < 3)%nat) cl ->
    exists e out,
      label_with cl df = Ok e
      /\ df_output e = Ok out
      /\ List.length out = nrows df
      /\ forall r, In r out ->
           Frame.assoc "learning_persona" r = Some (VStr "Balanced Average")
           \/ Frame.assoc "learning_persona" r = Some (VStr "High-Skill Achiever")
           \/ Frame.assoc "learning_persona" r
              = Some (VStr "Low Engagement/Struggler").
Proof.
  intros cl df L R.
  pose proof (label_with_ok cl df L) as He.
  pose proof (df_output_ok _ (enriched_has_cluster cl (nrows df) (columns df)))
    as Ho.
  eexists. eexists. split; [exact He|]. split; [exact Ho|]. split.
  - now rewrite length_map, length_to_records.
  - intros r Hr. apply In_nth_error in Hr. destruct Hr as [i Hi].
    destruct (exported_record cl df _ _ i r He Ho Hi) as [Lt _].
    destruct (nth_error cl i) as [c|] eqn:Hc.
    + rewrite (exported_persona cl df _ _ i c r He Ho Hi Hc).
      assert (Hlt : (c < 3)%nat).
      { rewrite Forall_forall in R. apply R. eapply nth_error_In; eauto. }
      destruct c as [|[|[|c]]]; auto. lia.
    + apply nth_error_None in Hc. lia.
Qed.

Lemma persona_total_witness :
  List.length Sample.pairs = nrows Sample.six_students
  /\ Forall (fun c => (c < 3)%nat) Sample.pairs
  /\ exists e out,
      label_with Sample.pairs Sample.six_students = Ok e
      /\ df_output e = Ok out
      /\ List.length out = nrows Sample.six_students
      /\ forall r, In r out ->
           Frame.assoc "learning_persona" r = Some (VStr "Balanced Average")
           \/ Frame.assoc "learning_persona" r = Some (VStr "High-Skill Achiever")
           \/ Frame.assoc "learning_persona" r
              = Some (VStr "Low Engagement/Struggler").
Proof.
  assert (L : List.length Sample.pairs = nrows Sample.six_students)
    by reflexivity.
  assert (R : Forall (fun c => (c < 3)%nat) Sample.pairs)
    by (repeat constructor).
  split; [exact L|]. split; [exact R|].
  exact (persona_total Sample.pairs Sample.six_students L R).
Defined.

(** C10. The persona of an exported record depends on the cluster index of
    its row only: two rows with one index get one persona, and two rows
    whose indices are different members of 0..2 get different personas. *)
Theorem persona_by_cluster_index :
  forall (cl : list nat) (df e : DataFrame) (out : list record)
         (i j ci cj : nat) (ri rj : record),
    label_with cl df = Ok e ->
    df_output e = Ok out ->
    nth_error cl i = Some ci ->
    nth_error cl j = Some cj ->
    nth_error out i = Some ri ->
    nth_error out j = Some rj ->
    (ci = cj ->
     Frame.assoc "learning_persona" ri = Frame.assoc "learning_persona" rj)
    /\ ((ci < 3)%nat -> (cj < 3)%nat -> ci <> cj ->
        Frame.assoc "learning_persona" ri <> Frame.assoc "learning_persona" rj).
Proof.
  intros cl df e out i j ci cj ri rj He Ho Hci Hcj Hri Hrj.
  rewrite (exported_persona cl df e out i ci ri He Ho Hri Hci).
  rewrite (exported_persona cl df e out j cj rj He Ho Hrj Hcj).
  split.
  - intros ->. reflexivity.
  - intros Li Lj N.
    destruct ci as [|[|[|ci]]]; destruct cj as [|[|[|cj]]];
      try lia; try congruence; discriminate.
Qed.

Lemma persona_by_cluster_index_witness :
  exists e out r0 r1 r2,
    label_with Sample.pairs Sample.six_students = Ok e
    /\ df_output e = Ok out
    /\ nth_error out 0 = Some r0
    /\ nth_error out 1 = Some r1
    /\ nth_error out 2 = Some r2
    /\ Frame.assoc "learning_persona" r0 = Frame.assoc "learning_persona" r1
    /\ Frame.assoc "learning_persona" r1 <> Frame.assoc "learning_persona" r2.
Proof.
  eexists. eexists. eexists. eexists. eexists.
  split; [exact labelled_pairs|]. split; [exact exported_pairs|].
  split; [reflexivity|]. split; [reflexivity|]. split; [reflexivity|].
  split.
  - apply (persona_by_cluster_index Sample.pairs Sample.six_students
             _ _ 0 1 0 0 _ _ labelled_pairs exported_pairs
             eq_refl eq_refl eq_refl eq_refl).
    reflexivity.
  - apply (persona_by_cluster_index Sample.pairs Sample.six_students
             _ _ 1 2 0 1 _ _ labelled_pairs exported_pairs
             eq_refl eq_refl eq_refl eq_refl); lia.
Defined.

(** ** Order, schema, errors *)

Lemma map_fst_filter {A} (p : string -> bool) (l : list (string * A)) :
  map fst (filter (fun kv => p (fst kv)) l) = filter p (map fst l).
Proof.
  induction l as [|[k v] l IH]; simpl; [reflexivity|].
  destruct (p k); simpl; now rewrite IH.
Qed.

Lemma six_students_numeric : numeric_features Sample.six_students.
Proof.
  intros f Hf. simpl in Hf.
  destruct Hf as [<- | [<- | [<- | [<- | [<- | []]]]]];
    eexists; eexists; split; reflexivity.
Qed.

(** C7. The analysis neither drops nor reorders records.  Whenever it
    returns records, there is one per input row, and record [i] carries
    the fields of input row [i]: every field other than the two that the
    analysis adds has the value it has in that row.  It does return
    records when the frame has at least as many rows as there are clusters
    and its clustering features are present and numeric. *)
Theorem order_preserved :
  forall {G : Generator} (seed : Z) (df : DataFrame),
    (forall out,
       analysis seed df = Ok out ->
       List.length out = nrows df
       /\ forall i, (i < nrows df)%nat ->
            exists r,
              nth_error out i = Some r
              /\ forall k, k <> "persona_cluster" -> k <> "learning_persona" ->
                   Frame.assoc k r = Frame.assoc k (Frame.row df i))
    /\ ((3 <= nrows df)%nat ->
        numeric_features df ->
        exists out, analysis seed df = Ok out).
Proof.
  intros G seed df. split.
  - intros out Hout.
    pose proof (length_analysis seed df out Hout) as L.
    split; [exact L|].
    intros i Hi.
    destruct (nth_error out i) as [r|] eqn:Hr.
    + exists r. split; [reflexivity|]. intros k N1 N2.
      destruct (analysis_inv seed df out Hout) as [X [e [_ [He Ho]]]].
      exact (exported_field _ df e out i r k He Ho Hr N1 N2).
    + apply nth_error_None in Hr. lia.
  - intros Hn Hf. exact (analysis_ok seed df Hn Hf).
Qed.

Lemma order_preserved_witness :
  (3 <= nrows Sample.six_students)%nat
  /\ numeric_features Sample.six_students
  /\ exists out,
      analysis (G:=Sample.counter) 42 Sample.six_students = Ok out
      /\ List.length out = nrows Sample.six_students
      /\ forall i, (i < nrows Sample.six_students)%nat ->
           exists r,
             nth_error out i = Some r
             /\ forall k, k <> "persona_cluster" -> k <> "learning_persona" ->
                  Frame.assoc k r
                  = Frame.assoc k (Frame.row Sample.six_students i).
Proof.
  assert (Hn : (3 <= nrows Sample.six_students)%nat) by (simpl; lia).
  split; [exact Hn|]. split; [exact six_students_numeric|].
  destruct (order_preserved (G:=Sample.counter) 42 Sample.six_students)
    as [P T].
  destruct (T Hn six_students_numeric) as [out Hout].
  exists out. split; [exact Hout|]. exact (P out Hout).
Defined.

(** C9. On a frame with the nine source columns, the export of the
    enriched frame succeeds with one record per row; each record has
    exactly the ten fields of the output schema, in order, and no
    [persona_cluster] field; and it is the enriched row with that one
    field taken out, so every other field keeps its value. *)
Theorem export_drops_only_cluster_index :
  forall {G : Generator} (seed : Z) (df e : DataFrame),
    Frame.names df = input_schema ->
    enrich seed df = Ok e ->
    exists out,
      df_output e = Ok out
      /\ List.length out = nrows e
      /\ forall i, (i < nrows e)%nat ->
           exists r,
             nth_error out i = Some r
             /\ map fst r = output_schema
             /\ Frame.assoc "persona_cluster" r = None
             /\ r = filter (fun kv => negb (String.eqb (fst kv) "persona_cluster"))
                           (Frame.row e i)
             /\ forall k, k <> "persona_cluster" ->
                  Frame.assoc k r = Frame.assoc k (Frame.row e i).
Proof.
  intros G seed df e Hs He.
  destruct (enrich_inv seed df e He) as [X [_ [_ He']]].
  destruct (label_with_inv _ df e He') as [L Ee].
  assert (Hc : Frame.has_column e "persona_cluster" = true)
    by (rewrite Ee; apply enriched_has_cluster).
  eexists. split; [exact (df_output_ok e Hc)|].
  split; [now rewrite length_map, length_to_records|].
  intros i Hi. exists (filter (fun kv => kept (fst kv)) (Frame.row e i)).
  split.
  { rewrite nth_error_map, nth_error_to_records.
    apply Nat.ltb_lt in Hi. now rewrite Hi. }
  split.
  { rewrite map_fst_filter, names_row. rewrite Ee.
    unfold Frame.names, enriched_columns. simpl columns.
    rewrite !names_set. fold (Frame.names df). rewrite Hs. reflexivity. }
  split; [now apply (assoc_filter_gone kept)|].
  split.
  { apply filter_ext. intros [k v]. unfold kept. simpl.
    now rewrite orb_false_r. }
  intros k N. apply (assoc_filter_keep kept). now apply kept_iff.
Qed.

Lemma export_drops_only_cluster_index_witness :
  Frame.names Sample.six_students = input_schema
  /\ exists e,
      enrich (G:=Sample.counter) 42 Sample.six_students = Ok e
      /\ exists out,
          df_output e = Ok out
          /\ List.length out = nrows e
          /\ forall i, (i < nrows e)%nat ->
               exists r,
                 nth_error out i = Some r
                 /\ map fst r = output_schema
                 /\ Frame.assoc "persona_cluster" r = None
                 /\ r = filter (fun kv =>
                                  negb (String.eqb (fst kv) "persona_cluster"))
                               (Frame.row e i)
                 /\ forall k, k <> "persona_cluster" ->
                      Frame.assoc k r = Frame.assoc k (Frame.row e i).
Proof.
  split; [reflexivity|].
  exists enriched_six. split; [exact enrich_six|].
  exact (export_drops_only_cluster_index (G:=Sample.counter) 42
           Sample.six_students enriched_six eq_refl enrich_six).
Defined.

(** C1, as the script has it.  The persona of an exported record is read
    off the fixed table at the raw cluster index of its row: 0 gives
    Balanced Average, 1 gives High-Skill Achiever, 2 gives Low
    Engagement/Struggler.  The centroids play no part. *)
Theorem persona_from_index_table :
  forall {G : Generator} (seed : Z) (df : DataFrame) (out : list record),
    analysis seed df = Ok out ->
    exists X,
      df_scaled df = Ok X
      /\ forall i r,
           nth_error out i = Some r ->
           exists c,
             nth_error (KMeans.labels_ (kmeans seed X)) i = Some c
             /\ Frame.assoc "learning_persona" r
                = Some (VStr (match c with
                              | 0%nat => "Balanced Average"
                              | 1%nat => "High-Skill Achiever"
                              | _ => "Low Engagement/Struggler"
                              end)).
Proof.
  intros G seed df out Hout.
  destruct (analysis_inv seed df out Hout) as [X [e [HX [He Ho]]]].
  exists X. split; [exact HX|]. intros i r Hr.
  destruct (exported_record _ df e out i r He Ho Hr) as [Hi _].
  destruct (nth_error (KMeans.labels_ (kmeans seed X)) i) as [c|] eqn:Hc.
  - exists c. split; [reflexivity|].
    rewrite (exported_persona _ df e out i c r He Ho Hr Hc).
    f_equal. apply persona_of_cases. exact (labels_range seed X i c Hc).
  - apply nth_error_None in Hc.
    rewrite length_labels, (length_df_scaled df X HX) in Hc. lia.
Qed.

Lemma persona_from_index_table_witness :
  analysis (G:=Sample.counter) 42 Sample.six_students = Ok exported_six
  /\ exists X,
      df_scaled Sample.six_students = Ok X
      /\ forall i r,
           nth_error exported_six i = Some r ->
           exists c,
             nth_error (KMeans.labels_ (kmeans (G:=Sample.counter) 42 X)) i
             = Some c
             /\ Frame.assoc "learning_persona" r
                = Some (VStr (match c with
                              | 0%nat => "Balanced Average"
                              | 1%nat => "High-Skill Achiever"
                              | _ => "Low Engagement/Struggler"
                              end)).
Proof.
  split; [exact analysis_six|].
  exact (persona_from_index_table (G:=Sample.counter) 42 Sample.six_students
           exported_six analysis_six).
Defined.

(** C1, as the specification words it, fails.  With the generator
    [Sample.counter] the strong pair of [Sample.six_students] forms cluster
    0, whose centroid has the highest composite score; the script labels
    the pair Balanced Average. *)
Lemma persona_not_by_composite_rank :
  ~ labelled_by_composite_rank (G:=Sample.counter) 42 Sample.six_students.
Proof.
  intros H.
  assert (Hr : nth_error exported_six 0 = Some (nth 0 exported_six []))
    by reflexivity.
  assert (Hc : nth_error (KMeans.labels_
                            (kmeans (G:=Sample.counter) 42 Sample.scaled_six)) 0
               = Some 0%nat)
    by (unfold kmeans; rewrite kmeans_six; reflexivity).
  assert (N : Frame.assoc "learning_persona" (nth 0 exported_six [])
              <> Some (VStr (spec_persona_by_rank
                               (KMeans.cluster_centers_
                                  (kmeans (G:=Sample.counter) 42
                                          Sample.scaled_six)) 0)))
    by (unfold kmeans; rewrite kmeans_six; vm_compute; discriminate).
  apply N.
  exact (H Sample.scaled_six exported_six 0%nat _ 0%nat
           df_scaled_six analysis_six Hr Hc).
Qed.

(** ** Missing features *)

Lemma df_scaled_error (df : DataFrame) (e : exn) :
  (forall f, In f clustering_features -> Frame.has_column df f = true) ->
  df_scaled df = Raise e -> exists msg, e = ValueError msg.
Proof.
  intros Hf. unfold df_scaled.
  rewrite (getitem_list_ok df clustering_features Hf).
  cbn beta iota delta [rbind]. unfold MinMaxScaler.fit_transform.
  destruct (nrows df); [intros H; inversion H; eauto|].
  set (sel := map _ clustering_features). clearbody sel.
  assert (N : forall l x, MinMaxScaler.to_floats l = Raise x ->
                          exists msg, x = ValueError msg).
  { induction l as [|v l IH]; simpl; [discriminate|]. intros x.
    destruct v; simpl; try solve [intros H; inversion H; eauto].
    - destruct (MinMaxScaler.to_floats l); simpl; [discriminate|].
      intros H; inversion H; subst. now apply IH.
    - destruct (MinMaxScaler.to_floats l); simpl; [discriminate|].
      intros H; inversion H; subst. now apply IH. }
  assert (M : forall l x, MinMaxScaler.to_numeric l = Raise x ->
                          exists msg, x = ValueError msg).
  { induction l as [|[k c] l IH]; simpl; [discriminate|]. intros x.
    destruct (MinMaxScaler.to_floats c) eqn:Ec; simpl.
    - destruct (MinMaxScaler.to_numeric l); simpl; [discriminate|].
      intros H; inversion H; subst. now apply IH.
    - intros H; inversion H; subst. eapply N; eauto. }
  destruct (MinMaxScaler.to_numeric sel) eqn:Es; simpl; [discriminate|].
  intros H; inversion H; subst. eapply M; eauto.
Qed.

(** C8. If a clustering feature is absent from the frame, selecting the
    features raises a [KeyError] that names it -- the error that the
    specification calls SchemaError -- and that error is the outcome of
    the analysis, whatever the clustering would have done; the run leaves
    the world as it found it.  If all five features are present the
    analysis never ends in a [KeyError]. *)
Theorem missing_feature_raises :
  forall {G : Generator} (seed : Z) (df : DataFrame),
    (forall f, In f clustering_features -> Frame.has_column df f = false ->
       exists missing,
         In f missing
         /\ Frame.getitem_list df clustering_features = Raise (KeyError missing)
         /\ df_scaled df = Raise (KeyError missing)
         /\ analysis seed df = Raise (KeyError missing)
         /\ forall w, pipeline seed df w = (Raise (KeyError missing), w))
    /\ ((forall f, In f clustering_features -> Frame.has_column df f = true) ->
        (exists sel, Frame.getitem_list df clustering_features = Ok sel)
        /\ forall missing, analysis seed df <> Raise (KeyError missing)).
Proof.
  intros G seed df. split.
  - intros f Hin Hf.
    destruct (getitem_list_missing df clustering_features f Hin Hf)
      as [missing [Hg Hm]].
    exists missing. split; [exact Hm|]. split; [exact Hg|].
    assert (Hs : df_scaled df = Raise (KeyError missing))
      by (unfold df_scaled; now rewrite Hg).
    split; [exact Hs|]. split.
    + unfold analysis, enrich. now rewrite Hs.
    + intros w. unfold pipeline, bind, lift, enrich. now rewrite Hs.
  - intros Hf. split.
    + rewrite (getitem_list_ok df clustering_features Hf). eauto.
    + intros missing H. unfold analysis, enrich in H.
      destruct (df_scaled df) as [X|e] eqn:HX.
      * cbn [rbind] in H.
        destruct (Nat.lt_ge_cases (List.length X) 3) as [L|L].
        { unfold label_frame in H. rewrite fit_predict_few in H by exact L.
          discriminate H. }
        rewrite label_frame_ok in H by exact L.
        rewrite label_with_ok in H
          by (rewrite length_labels; now apply length_df_scaled).
        simpl in H.
        rewrite df_output_ok in H by apply enriched_has_cluster.
        discriminate H.
      * simpl in H. inversion H; subst.
        destruct (df_scaled_error df _ Hf HX) as [msg Hmsg]. discriminate Hmsg.
Qed.

Lemma missing_feature_raises_witness :
  (In "focus" clustering_features
   /\ Frame.has_column Sample.no_focus "focus" = false
   /\ analysis (G:=Sample.counter) 42 Sample.no_focus
      = Raise (KeyError ["focus"]))
  /\ ((forall f, In f clustering_features ->
         Frame.has_column Sample.six_students f = true)
      /\ forall missing,
           analysis (G:=Sample.counter) 42 Sample.six_students
           <> Raise (KeyError missing)).
Proof.
  assert (Hin : In "focus" clustering_features) by (simpl; tauto).
  assert (Hno : Frame.has_column Sample.no_focus "focus" = false) by reflexivity.
  assert (Hall : forall f, In f clustering_features ->
                           Frame.has_column Sample.six_students f = true).
  { intros f Hf. simpl in Hf.
    destruct Hf as [<- | [<- | [<- | [<- | [<- | []]]]]]; reflexivity. }
  split.
  - split; [exact Hin|]. split; [exact Hno|].
    destruct (proj1 (missing_feature_raises (G:=Sample.counter) 42 Sample.no_focus)
                    "focus" Hin Hno) as [missing [_ [Hg [_ [Ha _]]]]].
    rewrite Ha. vm_compute in Hg. inversion Hg. reflexivity.
  - split; [exact Hall|].
    exact (proj2 (proj2 (missing_feature_raises (G:=Sample.counter) 42
                           Sample.six_students) Hall)).
Defined.


(** ** Runs of the script *)

Section RunFacts.

Context {G : Generator}.

Lemma length_draw {A} (one : rng -> A * rng) (n : nat) :
  forall g, List.length (fst (draw n one g)) = n.
Proof.
  induction n as [|n IH]; intros g; simpl; [reflexivity|].
  destruct (one g) as [a g1]. specialize (IH g1).
  destruct (draw n one g1) as [l g2]. simpl in *. now rewrite IH.
Qed.

(** The record source reads the global generator only after seeding it:
    what it builds is a function of the seed. *)
Lemma generate_source (seed : Z) (w : World) :
  generate seed w
  = (fst (source (RandomState seed)),
     mkWorld (snd (source (RandomState seed))) (dirs w) (files w)).
Proof.
  unfold generate, source, bind, np_random_seed, sample, lift.
  cbn [np_random dirs files].
  repeat match goal with
         | |- context [draw num_students ?one ?g] =>
             destruct (draw num_students one g); cbn [np_random dirs files]
         end.
  reflexivity.
Qed.

Lemma dirname_output_path : dirname output_path = public_dir.
Proof. reflexivity. Qed.

Lemma dirname_public_dir : dirname public_dir = "".
Proof. reflexivity. Qed.

Lemma read_exported (w : World) (out : list record) :
  read_file output_path (exported_world w out) = Some out.
Proof.
  unfold read_file, exported_world. cbn [files Frame.assoc fst snd].
  now rewrite String.eqb_refl.
Qed.

Lemma read_other_exported (w : World) (out : list record) (p : string) :
  p <> output_path ->
  read_file p (exported_world w out) = read_file p w.
Proof.
  intros Hp. unfold read_file, exported_world. cbn [files Frame.assoc].
  apply String.eqb_neq in Hp. rewrite Hp.
  apply (assoc_filter_keep (fun k => negb (String.eqb output_path k))).
  rewrite String.eqb_sym. now rewrite Hp.
Qed.

(** Creating the output directory where no path of its name exists. *)
Lemma makedirs_public (w : World) :
  present w = false ->
  makedirs public_dir w
  = (Ok tt, mkWorld (np_random w) (public_dir :: dirs w) (files w)).
Proof.
  intros P. unfold makedirs.
  change (String.length public_dir) with 6%nat.
  cbn [makedirs_upto]. unfold present in P. unfold is_file. rewrite P.
  rewrite dirname_public_dir. reflexivity.
Qed.

Lemma to_json_ok (out : list record) (w : World) :
  existsb (String.eqb public_dir) (dirs w) = true ->
  existsb (String.eqb output_path) (dirs w) = false ->
  to_json output_path out w
  = (Ok tt,
     mkWorld (np_random w) (dirs w)
             ((output_path, out)
                :: filter (fun f => negb (String.eqb output_path (fst f)))
                          (files w))).
Proof.
  intros D N. unfold to_json. rewrite dirname_output_path.
  unfold is_dir. rewrite D, N, orb_true_r. reflexivity.
Qed.

Lemma to_json_raise (out : list record) (w : World) :
  existsb (String.eqb public_dir) (dirs w) = false
  \/ existsb (String.eqb output_path) (dirs w) = true ->
  exists msg, to_json output_path out w = (Raise (OSError msg), w).
Proof.
  intros H. unfold to_json. rewrite dirname_output_path.
  unfold is_dir. change (String.eqb public_dir "") with false.
  cbn [orb].
  destruct H as [H | H]; rewrite H; cbn [negb andb];
    [|rewrite andb_false_r]; eauto.
Qed.

Lemma pipeline_raise (seed : Z) (df : DataFrame) (w : World) (x : exn) :
  enrich seed df = Raise x -> pipeline seed df w = (Raise x, w).
Proof.
  intros H. unfold pipeline, bind, lift. now rewrite H.
Qed.

(** Lines 47-52 where the shape of the tree allows the export. *)
Lemma pipeline_writable (seed : Z) (df e : DataFrame) (w : World)
      (out : list record) :
  enrich seed df = Ok e -> df_output e = Ok out -> writable w = true ->
  pipeline seed df w = (Ok tt, exported_world w out).
Proof.
  intros He Ho Hw. unfold pipeline, bind, lift, path_exists, ret.
  rewrite He. fold (present w). unfold exported_world.
  unfold writable in Hw. apply andb_prop in Hw. destruct Hw as [D N].
  apply negb_true_iff in N.
  destruct (present w) eqn:P.
  - cbn [negb] in D. rewrite orb_false_r in D.
    rewrite Ho. now apply to_json_ok.
  - rewrite (makedirs_public w P), Ho.
    rewrite to_json_ok; [reflexivity | |].
    + cbn [dirs existsb]. now rewrite String.eqb_refl.
    + cbn [dirs existsb]. rewrite N. reflexivity.
Qed.

(** Lines 47-52 where it does not: the run ends in an [OSError] and no
    file has changed. *)
Lemma pipeline_unwritable (seed : Z) (df e : DataFrame) (w : World) :
  enrich seed df = Ok e -> writable w = false ->
  exists msg,
    fst (pipeline seed df w) = Raise (OSError msg)
    /\ np_random (snd (pipeline seed df w)) = np_random w
    /\ files (snd (pipeline seed df w)) = files w.
Proof.
  intros He Hw. destruct (enrich_output seed df e He) as [out [Ho _]].
  unfold pipeline, bind, lift, path_exists, ret.
  rewrite He. fold (present w).
  unfold writable in Hw. apply andb_false_iff in Hw.
  destruct (present w) eqn:P.
  - rewrite Ho.
    assert (F : existsb (String.eqb public_dir) (dirs w) = false
                \/ existsb (String.eqb output_path) (dirs w) = true).
    { destruct Hw as [D | N].
      - left. cbn [negb] in D. now rewrite orb_false_r in D.
      - right. now apply negb_false_iff in N. }
    destruct (to_json_raise out w F) as [msg ->].
    exists msg. repeat split; reflexivity.
  - rewrite (makedirs_public w P), Ho.
    destruct Hw as [D | N].
    + cbn [negb] in D. rewrite orb_true_r in D. discriminate D.
    + apply negb_false_iff in N.
      assert (F : existsb (String.eqb public_dir)
                          (dirs (mkWorld (np_random w) (public_dir :: dirs w)
                                         (files w))) = false
                  \/ existsb (String.eqb output_path)
                             (dirs (mkWorld (np_random w)
                                            (public_dir :: dirs w) (files w)))
                     = true).
      { right. cbn [dirs existsb]. rewrite N. apply orb_true_r. }
      destruct (to_json_raise out _ F) as [msg ->].
      exists msg. repeat split; reflexivity.
Qed.

(** A run of lines 37-52 that succeeds. *)
Lemma pipeline_success (seed : Z) (df : DataFrame) (w : World) :
  fst (pipeline seed df w) = Ok tt ->
  exists e out,
    enrich seed df = Ok e
    /\ analysis seed df = Ok out
    /\ writable w = true
    /\ pipeline seed df w = (Ok tt, exported_world w out).
Proof.
  intros H. destruct (enrich seed df) as [e|x] eqn:He.
  - destruct (enrich_output seed df e He) as [out [Ho Ha]].
    destruct (writable w) eqn:Hw.
    + exists e, out. split; [reflexivity|]. split; [exact Ha|].
      split; [reflexivity|]. now apply (pipeline_writable seed df e).
    + destruct (pipeline_unwritable seed df e w He Hw) as [msg [E _]].
      rewrite E in H. discriminate H.
  - rewrite (pipeline_raise seed df w x He) in H. discriminate H.
Qed.

End RunFacts.

Section SourceFacts.

Context {G : Generator}.

Lemma length_map2 {A B C} (f : A -> B -> C) (l1 : list A) :
  forall l2, List.length (Np.map2 f l1 l2)
             = Nat.min (List.length l1) (List.length l2).
Proof.
  induction l1 as [|a l1 IH]; intros [|b l2]; simpl; auto.
Qed.

Lemma length_score_raw (n : nat) (c a f r : list Z) (e noise : list Q) :
  List.length c = n -> List.length a = n -> List.length f = n ->
  List.length r = n -> List.length e = n -> List.length noise = n ->
  List.length (score_raw c a f r e noise) = n.
Proof.
  intros Hc Ha Hf Hr He Hn. unfold score_raw, Np.add, Np.scale, Np.of_ints.
  rewrite !length_map2, !length_map. lia.
Qed.

Lemma length_student_ids : List.length student_ids = num_students.
Proof. unfold student_ids. now rewrite length_map, length_seq. Qed.

Lemma length_names : List.length names = num_students.
Proof. unfold names. now rewrite length_map, length_seq. Qed.

Lemma make_frame_ok (cls : list string) (c a f r : list Z) (e : list Q)
      (score : list Z) :
  List.length cls = num_students -> List.length c = num_students ->
  List.length a = num_students -> List.length f = num_students ->
  List.length r = num_students -> List.length e = num_students ->
  List.length score = num_students ->
  make_frame cls c a f r e score
  = Ok (mkDF num_students (frame_columns cls c a f r e score)).
Proof.
  intros H1 H2 H3 H4 H5 H6 H7.
  unfold make_frame, Frame.DataFrame_of_dict.
  unfold frame_columns at 1.
  unfold frame_columns at 1. cbv beta iota delta [forallb snd].
  rewrite !length_map, length_student_ids, length_names,
    H1, H2, H3, H4, H5, H6, H7.
  rewrite Nat.eqb_refl. reflexivity.
Qed.

(** The record source always builds a frame of [num_students] rows with
    the nine source columns; the drawn arrays are its columns. *)
Lemma source_ok (g0 : rng) :
  exists cls c a f r u noise g',
    source g0
    = (Ok (mkDF num_students
             (frame_columns cls c a f r (map Np.round1 u)
                (assessment_score
                   (score_raw c a f r (map Np.round1 u) noise)))),
       g')
    /\ List.length (score_raw c a f r (map Np.round1 u) noise) = num_students.
Proof.
  unfold source.
  pose proof (length_draw (choice1 ["A"; "B"; "C"] [4 # 10; 3 # 10; 3 # 10])
                num_students g0) as L1.
  destruct (draw num_students _ g0) as [cls g1]. simpl in L1.
  pose proof (length_draw (randint1 50 100) num_students g1) as L2.
  destruct (draw num_students _ g1) as [c g2]. simpl in L2.
  pose proof (length_draw (randint1 40 95) num_students g2) as L3.
  destruct (draw num_students _ g2) as [a g3]. simpl in L3.
  pose proof (length_draw (randint1 45 90) num_students g3) as L4.
  destruct (draw num_students _ g3) as [f g4]. simpl in L4.
  pose proof (length_draw (randint1 40 95) num_students g4) as L5.
  destruct (draw num_students _ g4) as [r g5]. simpl in L5.
  pose proof (length_draw (uniform1 5 20) num_students g5) as L6.
  destruct (draw num_students _ g5) as [u g6]. simpl in L6.
  pose proof (length_draw (normal1 0 5) num_students g6) as L7.
  destruct (draw num_students _ g6) as [noise g7]. simpl in L7.
  exists cls, c, a, f, r, u, noise, g7.
  assert (Ls : List.length (score_raw c a f r (map Np.round1 u) noise)
               = num_students)
    by (apply length_score_raw; auto; now rewrite length_map).
  split; [|exact Ls].
  rewrite make_frame_ok; auto.
  - now rewrite length_map.
  - unfold assessment_score. now rewrite length_map.
Qed.

Lemma to_floats_ints (l : list Z) :
  MinMaxScaler.to_floats (map VInt l) = Ok (map inject_Z l).
Proof. induction l as [|z l IH]; simpl; [reflexivity|]. now rewrite IH. Qed.

Lemma to_floats_floats (l : list Q) :
  MinMaxScaler.to_floats (map VFloat l) = Ok l.
Proof. induction l as [|q l IH]; simpl; [reflexivity|]. now rewrite IH. Qed.

Lemma source_frame_numeric (n : nat) (cls : list string) (c a f r : list Z)
      (e : list Q) (score : list Z) :
  numeric_features (mkDF n (frame_columns cls c a f r e score)).
Proof.
  intros k Hk. simpl in Hk.
  destruct Hk as [<- | [<- | [<- | [<- | [<- | []]]]]].
  - exists (map VInt c), (map inject_Z c). split; [reflexivity|].
    apply to_floats_ints.
  - exists (map VInt a), (map inject_Z a). split; [reflexivity|].
    apply to_floats_ints.
  - exists (map VInt f), (map inject_Z f). split; [reflexivity|].
    apply to_floats_ints.
  - exists (map VInt r), (map inject_Z r). split; [reflexivity|].
    apply to_floats_ints.
  - exists (map VFloat e), e. split; [reflexivity|].
    apply to_floats_floats.
Qed.

(** The whole script is lines 37-52 on the frame that the seeded record
    source builds; that frame can be analysed. *)
Lemma main_outcome (w : World) :
  exists df e out g',
    source (RandomState 42) = (Ok df, g')
    /\ (exists cls c a f r u raw,
          df = mkDF num_students
                    (frame_columns cls c a f r u (assessment_score raw))
          /\ List.length raw = num_students)
    /\ enrich 42 df = Ok e
    /\ analysis 42 df = Ok out
    /\ main w = pipeline 42 df (mkWorld g' (dirs w) (files w)).
Proof.
  destruct (source_ok (RandomState 42))
    as [cls [c [a [f [r [u [noise [g' [Hs Ls]]]]]]]]].
  set (df := mkDF num_students
               (frame_columns cls c a f r (map Np.round1 u)
                  (assessment_score
                     (score_raw c a f r (map Np.round1 u) noise)))) in *.
  assert (Hn : (3 <= nrows df)%nat) by (simpl; unfold num_students; lia).
  destruct (enrich_ok 42 df Hn (source_frame_numeric _ _ _ _ _ _ _ _))
    as [X [_ He]].
  destruct (enrich_output 42 df _ He) as [out [_ Hout]].
  eexists df, _, out, g'. split; [exact Hs|].
  split; [unfold df; eauto 12|]. split; [exact He|]. split; [exact Hout|].
  unfold main, bind. rewrite generate_source, Hs. reflexivity.
Qed.

(** A run of the whole script that succeeds. *)
Lemma main_success (w : World) :
  fst (main w) = Ok tt ->
  exists df out g',
    source (RandomState 42) = (Ok df, g')
    /\ (exists cls c a f r u raw,
          df = mkDF num_students
                    (frame_columns cls c a f r u (assessment_score raw))
          /\ List.length raw = num_students)
    /\ analysis 42 df = Ok out
    /\ writable w = true
    /\ main w = (Ok tt, exported_world (mkWorld g' (dirs w) (files w)) out).
Proof.
  intros H.
  destruct (main_outcome w) as [df [e [out [g' [Hs [Sh [He [Ha Hm]]]]]]]].
  rewrite Hm in H.
  destruct (pipeline_success 42 df _ H) as [e' [out' [_ [Ha' [Hw Hp]]]]].
  rewrite Ha in Ha'. inversion Ha'; subst out'.
  exists df, out, g'. split; [exact Hs|]. split; [exact Sh|].
  split; [exact Ha|]. split; [exact Hw|]. now rewrite Hm.
Qed.

(** The whole script succeeds where the shape of the tree allows the
    export. *)
Lemma main_writable (w : World) : writable w = true -> fst (main w) = Ok tt.
Proof.
  intros Hw.
  destruct (main_outcome w) as [df [e [out [g' [_ [_ [He [_ Hm]]]]]]]].
  destruct (enrich_output 42 df e He) as [out' [Ho _]].
  rewrite Hm.
  now rewrite (pipeline_writable 42 df e (mkWorld g' (dirs w) (files w))
                 out' He Ho Hw).
Qed.

End SourceFacts.

(** ** Whole runs *)

(** C4. Two runs on one frame and one seed agree, whatever the state of
    the global generator and of the file system they start from.  An error
    of the analysis is the outcome of both.  When both runs succeed, both
    leave the same records in the output file: the records of the
    analysis, in which row [i] carries the persona of the cluster index
    that the clustering, seeded by the seed alone, gives row [i].  The
    seeded record source builds the same frame in both, and two successful
    runs of the whole script write the same records. *)
Theorem two_runs_agree :
  forall {G : Generator} (seed : Z) (df : DataFrame) (w1 w2 : World),
    (forall x, analysis seed df = Raise x ->
       fst (pipeline seed df w1) = Raise x
       /\ fst (pipeline seed df w2) = Raise x)
    /\ (fst (pipeline seed df w1) = Ok tt ->
        fst (pipeline seed df w2) = Ok tt ->
        exists X out,
          df_scaled df = Ok X
          /\ analysis seed df = Ok out
          /\ read_file output_path (snd (pipeline seed df w1)) = Some out
          /\ read_file output_path (snd (pipeline seed df w2)) = Some out
          /\ forall i r, nth_error out i = Some r ->
               exists c,
                 nth_error (KMeans.labels_ (kmeans seed X)) i = Some c
                 /\ Frame.assoc "learning_persona" r = Some (persona_of c))
    /\ fst (generate seed w1) = fst (generate seed w2)
    /\ (fst (main w1) = Ok tt ->
        fst (main w2) = Ok tt ->
        exists out,
          read_file output_path (snd (main w1)) = Some out
          /\ read_file output_path (snd (main w2)) = Some out).
Proof.
  intros G seed df w1 w2.
  split; [|split; [|split]].
  - intros x Hx. apply analysis_raise in Hx.
    now rewrite !(pipeline_raise seed df _ x Hx).
  - intros H1 H2.
    destruct (pipeline_success seed df w1 H1) as [e1 [o1 [_ [A1 [_ P1]]]]].
    destruct (pipeline_success seed df w2 H2) as [e2 [o2 [_ [A2 [_ P2]]]]].
    rewrite A1 in A2. inversion A2; subst o2.
    destruct (analysis_inv seed df o1 A1) as [X [e [HX [He Ho]]]].
    exists X, o1. split; [exact HX|]. split; [exact A1|].
    rewrite P1, P2. cbn [snd].
    split; [apply read_exported|]. split; [apply read_exported|].
    intros i r Hr.
    destruct (exported_record _ df e o1 i r He Ho Hr) as [Hi _].
    destruct (nth_error (KMeans.labels_ (kmeans seed X)) i) as [c|] eqn:Hc.
    + exists c. split; [reflexivity|].
      exact (exported_persona _ df e o1 i c r He Ho Hr Hc).
    + apply nth_error_None in Hc.
      rewrite length_labels, (length_df_scaled df X HX) in Hc. lia.
  - now rewrite !generate_source.
  - intros H1 H2.
    destruct (main_success w1 H1) as [d1 [o1 [g1 [S1 [_ [A1 [_ M1]]]]]]].
    destruct (main_success w2 H2) as [d2 [o2 [g2 [S2 [_ [A2 [_ M2]]]]]]].
    rewrite S1 in S2. inversion S2; subst d2 g2.
    rewrite A1 in A2. inversion A2; subst o2.
    exists o1. rewrite M1, M2. cbn [snd].
    split; apply read_exported.
Qed.

Lemma two_runs_agree_witness :
  fst (pipeline (G:=Sample.counter) 42 Sample.six_students
                (mkWorld (G:=Sample.counter) 0%nat [] [])) = Ok tt
  /\ fst (pipeline (G:=Sample.counter) 42 Sample.six_students
                   (mkWorld (G:=Sample.counter) 7%nat ["public"]
                            [(output_path, [])])) = Ok tt
  /\ exists X out,
      df_scaled Sample.six_students = Ok X
      /\ analysis (G:=Sample.counter) 42 Sample.six_students = Ok out
      /\ read_file output_path
           (snd (pipeline (G:=Sample.counter) 42 Sample.six_students
                          (mkWorld (G:=Sample.counter) 0%nat [] [])))
         = Some out
      /\ read_file output_path
           (snd (pipeline (G:=Sample.counter) 42 Sample.six_students
                          (mkWorld (G:=Sample.counter) 7%nat ["public"]
                                   [(output_path, [])])))
         = Some out
      /\ forall i r, nth_error out i = Some r ->
           exists c,
             nth_error (KMeans.labels_
                          (kmeans (G:=Sample.counter) 42 X)) i = Some c
             /\ Frame.assoc "learning_persona" r = Some (persona_of c).
Proof.
  assert (H1 : fst (pipeline (G:=Sample.counter) 42 Sample.six_students
                             (mkWorld (G:=Sample.counter) 0%nat [] []))
               = Ok tt)
    by (rewrite (pipeline_writable (G:=Sample.counter) 42 Sample.six_students
                   enriched_six (mkWorld (G:=Sample.counter) 0%nat [] [])
                   exported_six enrich_six exported_pairs eq_refl);
        reflexivity).
  assert (H2 : fst (pipeline (G:=Sample.counter) 42 Sample.six_students
                             (mkWorld (G:=Sample.counter) 7%nat ["public"]
                                      [(output_path, [])]))
               = Ok tt)
    by (rewrite (pipeline_writable (G:=Sample.counter) 42 Sample.six_students
                   enriched_six
                   (mkWorld (G:=Sample.counter) 7%nat ["public"]
                            [(output_path, [])])
                   exported_six enrich_six exported_pairs eq_refl);
        reflexivity).
  split; [exact H1|]. split; [exact H2|].
  exact (proj1 (proj2
           (two_runs_agree (G:=Sample.counter) 42 Sample.six_students
              (mkWorld (G:=Sample.counter) 0%nat [] [])
              (mkWorld (G:=Sample.counter) 7%nat ["public"]
                       [(output_path, [])])))
           H1 H2).
Defined.

(** C6. Every assessment score lies in [0, 100].  The derived score of a
    raw score is that score rounded to the nearest integer (halves to
    even) and then clamped: below 0 it becomes 0, above 100 it becomes
    100, in between it is kept; no raw score is refused.  Accordingly,
    when a run of the script succeeds, the file it has written holds
    [num_students] records and each has an integer [assessment_score]
    between 0 and 100. *)
Theorem assessment_score_in_range :
  forall {G : Generator} (w : World) (raw : list Q),
    (List.length (assessment_score raw) = List.length raw
     /\ Forall (fun z => (0 <= z <= 100)%Z) (assessment_score raw)
     /\ forall i s, nth_error raw i = Some s ->
          nth_error (assessment_score raw) i
          = Some (Z.min (Z.max (Np.round_half_even s) 0) 100))
    /\ (fst (main w) = Ok tt ->
        exists out,
          read_file output_path (snd (main w)) = Some out
          /\ List.length out = num_students
          /\ forall r, In r out ->
               exists z, Frame.assoc "assessment_score" r = Some (VInt z)
                         /\ (0 <= z <= 100)%Z).
Proof.
  intros G w raw. split; [apply assessment_score_spec|].
  intros Hm.
  destruct (main_success w Hm)
    as [df [out [g' [_ [[cls [c [a [f [r [e [raw0 [Edf Lraw]]]]]]]]
                         [Ha [_ Hw]]]]]]].
  exists out. split; [rewrite Hw; apply read_exported|].
  pose proof (length_analysis 42 df out Ha) as L.
  split; [rewrite L, Edf; reflexivity|].
  intros rec Hin. apply In_nth_error in Hin. destruct Hin as [i Hi].
  destruct (analysis_inv 42 df out Ha) as [X [en [_ [He Ho]]]].
  rewrite (exported_field _ df en out i rec "assessment_score" He Ho Hi)
    by discriminate.
  assert (Hlt : (i < nrows df)%nat).
  { rewrite <- L. apply nth_error_Some. congruence. }
  rewrite assoc_row. rewrite Edf in Hlt |- *. simpl in Hlt.
  change (Frame.assoc "assessment_score"
            (columns (mkDF num_students
                        (frame_columns cls c a f r e (assessment_score raw0)))))
    with (Some (map VInt (assessment_score raw0))).
  cbn [option_map].
  destruct (assessment_score_spec raw0) as [Lsc [Hrange _]].
  destruct (nth_error (assessment_score raw0) i) as [z|] eqn:Hz.
  - exists z. split.
    + f_equal. apply nth_error_nth. now rewrite nth_error_map, Hz.
    + rewrite Forall_forall in Hrange. apply Hrange.
      eapply nth_error_In; eauto.
  - exfalso. apply nth_error_None in Hz. lia.
Qed.

Lemma assessment_score_in_range_witness :
  (nth_error [211 # 2; (-7) # 3; 125 # 2] 0 = Some (211 # 2)
   /\ nth_error (assessment_score [211 # 2; (-7) # 3; 125 # 2]) 0
      = Some (Z.min (Z.max (Np.round_half_even (211 # 2)) 0) 100))
  /\ (fst (main (G:=Sample.counter) (mkWorld (G:=Sample.counter) 0%nat [] []))
      = Ok tt
      /\ exists out,
          read_file output_path
            (snd (main (G:=Sample.counter)
                       (mkWorld (G:=Sample.counter) 0%nat [] [])))
          = Some out
          /\ List.length out = num_students
          /\ forall r, In r out ->
               exists z, Frame.assoc "assessment_score" r = Some (VInt z)
                         /\ (0 <= z <= 100)%Z).
Proof.
  assert (Hm : fst (main (G:=Sample.counter)
                         (mkWorld (G:=Sample.counter) 0%nat [] []))
               = Ok tt)
    by (apply (main_writable (G:=Sample.counter)); reflexivity).
  destruct (assessment_score_in_range (G:=Sample.counter)
              (mkWorld (G:=Sample.counter) 0%nat [] [])
              [211 # 2; (-7) # 3; 125 # 2]) as [[_ [_ P]] Q].
  split.
  - split; [reflexivity|]. exact (P 0%nat (211 # 2) eq_refl).
  - split; [exact Hm|]. exact (Q Hm).
Defined.

(** Raw scores of 105.5, -7/3 and 62.5 give 100, 0 and 62. *)
Example assessment_score_samples :
  assessment_score [211 # 2; (-7) # 3; 125 # 2] = [100; 0; 62]%Z.
Proof. reflexivity. Qed.

(* ================================================================== *)
(** * Further properties of the script *)

(** ** Identifiers and names (lines 12-13) *)

Lemma strip_prefix_append (p s : string) :
  strip_prefix p (p ++ s)%string = Some s.
Proof.
  induction p as [|a p IH]; simpl; [reflexivity|].
  now rewrite Ascii.eqb_refl.
Qed.

Lemma parse_decimal_zeros (k : nat) (s : string) :
  parse_decimal (zeros k ++ s)%string = parse_decimal s.
Proof.
  induction k as [|k IH]; simpl; [reflexivity|].
  unfold parse_decimal in *. simpl.
  destruct (NilEmpty.uint_of_string (zeros k ++ s)%string) as [d|];
    destruct (NilEmpty.uint_of_string s) as [d'|]; simpl in *;
    try discriminate; try reflexivity.
  rewrite <- IH. reflexivity.
Qed.

Lemma parse_decimal_decimal (n : nat) : parse_decimal (decimal n) = Some n.
Proof.
  unfold parse_decimal, decimal. rewrite NilEmpty.usu. simpl.
  now rewrite DecimalNat.Unsigned.of_to.
Qed.

Lemma parse_format_03d (n : nat) : parse_decimal (format_03d n) = Some n.
Proof.
  unfold format_03d. rewrite parse_decimal_zeros. apply parse_decimal_decimal.
Qed.

Lemma length_string_append (s t : string) :
  String.length (s ++ t)%string = (String.length s + String.length t)%nat.
Proof. induction s as [|a s IH]; simpl; [reflexivity|]. now rewrite IH. Qed.

Lemma length_zeros (k : nat) : String.length (zeros k) = k.
Proof. induction k as [|k IH]; simpl; [reflexivity|]. now rewrite IH. Qed.

Lemma nth_error_student_ids (i : nat) :
  nth_error student_ids i
  = if Nat.ltb i num_students
    then Some ("S" ++ format_03d (i + 1))%string
    else None.
Proof.
  unfold student_ids. rewrite nth_error_map, nth_error_seq.
  now destruct (Nat.ltb i num_students).
Qed.

Lemma nth_error_names (i : nat) :
  nth_error names i
  = if Nat.ltb i num_students
    then Some ("Student_" ++ decimal (i + 1))%string
    else None.
Proof.
  unfold names. rewrite nth_error_map, nth_error_seq.
  now destruct (Nat.ltb i num_students).
Qed.

(** X1. The student id of row [i] is the letter S followed by [i + 1] in
    decimal, padded with zeros to at least three digits: its number reads
    back as [i + 1] and it has at least four characters.  Hence there is
    one id per student and no two rows share an id. *)
Theorem student_ids_read_back :
  List.length student_ids = num_students
  /\ (forall i s, nth_error student_ids i = Some s ->
        id_number s = Some (i + 1)%nat /\ (4 <= String.length s)%nat)
  /\ NoDup student_ids.
Proof.
  assert (R : forall i s, nth_error student_ids i = Some s ->
                id_number s = Some (i + 1)%nat /\ (4 <= String.length s)%nat).
  { intros i s H. rewrite nth_error_student_ids in H.
    destruct (Nat.ltb i num_students); [|discriminate].
    assert (E : s = ("S" ++ format_03d (i + 1))%string) by congruence.
    clear H. subst s. split.
    - unfold id_number. rewrite strip_prefix_append. apply parse_format_03d.
    - unfold format_03d. rewrite !length_string_append, length_zeros.
      change (String.length "S") with 1%nat. lia. }
  split; [unfold student_ids; now rewrite length_map, length_seq|].
  split; [exact R|].
  apply NoDup_nth_error. intros i j Hi E.
  destruct (nth_error student_ids i) as [s|] eqn:Hs.
  - destruct (R i s Hs) as [Ni _].
    destruct (R j s (eq_sym E)) as [Nj _].
    rewrite Ni in Nj. inversion Nj. lia.
  - apply nth_error_None in Hs. lia.
Qed.

Lemma student_ids_read_back_witness :
  nth_error student_ids 41 = Some "S042"
  /\ id_number "S042" = Some 42%nat
  /\ (4 <= String.length "S042")%nat.
Proof.
  assert (H : nth_error student_ids 41 = Some "S042") by reflexivity.
  split; [exact H|].
  exact (proj1 (proj2 student_ids_read_back) 41%nat "S042" H).
Defined.

(** X2. The display name of row [i] is [Student_] followed by [i + 1] in
    decimal, without padding: its number reads back as [i + 1], and no two
    rows share a name. *)
Theorem names_read_back :
  List.length names = num_students
  /\ (forall i s, nth_error names i = Some s -> name_number s = Some (i + 1)%nat)
  /\ NoDup names.
Proof.
  assert (R : forall i s, nth_error names i = Some s ->
                          name_number s = Some (i + 1)%nat).
  { intros i s H. rewrite nth_error_names in H.
    destruct (Nat.ltb i num_students); [|discriminate].
    assert (E : s = ("Student_" ++ decimal (i + 1))%string) by congruence.
    clear H. subst s.
    unfold name_number. rewrite strip_prefix_append.
    apply parse_decimal_decimal. }
  split; [unfold names; now rewrite length_map, length_seq|].
  split; [exact R|].
  apply NoDup_nth_error. intros i j Hi E.
  destruct (nth_error names i) as [s|] eqn:Hs.
  - pose proof (R i s Hs) as Ni.
    pose proof (R j s (eq_sym E)) as Nj.
    rewrite Ni in Nj. inversion Nj. lia.
  - apply nth_error_None in Hs. lia.
Qed.

Lemma names_read_back_witness :
  nth_error names 99 = Some "Student_100"
  /\ name_number "Student_100" = Some 100%nat.
Proof.
  assert (H : nth_error names 99 = Some "Student_100") by reflexivity.
  split; [exact H|].
  exact (proj1 (proj2 names_read_back) 99%nat "Student_100" H).
Defined.

(** ** The record source (lines 10-34) *)

Section SourceShape.

Context {G : Generator}.

Lemma source_shape (g0 : rng) :
  exists cls c a f r u noise g',
    source g0
    = (Ok (mkDF num_students
             (frame_columns cls c a f r (map Np.round1 u)
                (assessment_score
                   (score_raw c a f r (map Np.round1 u) noise)))),
       g')
    /\ List.length cls = num_students
    /\ List.length c = num_students
    /\ List.length a = num_students
    /\ List.length f = num_students
    /\ List.length r = num_students
    /\ List.length u = num_students
    /\ List.length noise = num_students.
Proof.
  unfold source.
  pose proof (length_draw (choice1 ["A"; "B"; "C"] [4 # 10; 3 # 10; 3 # 10])
                num_students g0) as L1.
  destruct (draw num_students _ g0) as [cls g1]. simpl in L1.
  pose proof (length_draw (randint1 50 100) num_students g1) as L2.
  destruct (draw num_students _ g1) as [c g2]. simpl in L2.
  pose proof (length_draw (randint1 40 95) num_students g2) as L3.
  destruct (draw num_students _ g2) as [a g3]. simpl in L3.
  pose proof (length_draw (randint1 45 90) num_students g3) as L4.
  destruct (draw num_students _ g3) as [f g4]. simpl in L4.
  pose proof (length_draw (randint1 40 95) num_students g4) as L5.
  destruct (draw num_students _ g4) as [r g5]. simpl in L5.
  pose proof (length_draw (uniform1 5 20) num_students g5) as L6.
  destruct (draw num_students _ g5) as [u g6]. simpl in L6.
  pose proof (length_draw (normal1 0 5) num_students g6) as L7.
  destruct (draw num_students _ g6) as [noise g7]. simpl in L7.
  exists cls, c, a, f, r, u, noise, g7.
  split; [|repeat split; assumption].
  rewrite make_frame_ok; auto.
  - now rewrite length_map.
  - unfold assessment_score. rewrite length_map.
    apply length_score_raw; auto. now rewrite length_map.
Qed.

Lemma Forall_map_kind {A} (mk : A -> value) (P : value -> Prop) (l : list A) :
  (forall x, P (mk x)) -> Forall P (map mk l).
Proof. intros H. apply Forall_forall. intros v Hv.
  apply in_map_iff in Hv. destruct Hv as [x [<- _]]. apply H. Qed.

(** X3. Whatever the generator and the world, the record source raises
    nothing and builds a frame of [num_students] rows with the nine source
    columns in order, every column of that length; the identifier, name
    and class cells are strings, the four metrics and the assessment
    score are integers, and every engagement time is a whole number of
    tenths.  It changes the state of the global generator only: the file
    system is as it was. *)
Theorem generated_frame_conforms :
  forall (seed : Z) (w : World),
  exists df g,
    generate seed w = (Ok df, mkWorld g (dirs w) (files w))
    /\ nrows df = num_students
    /\ Frame.names df = input_schema
    /\ Frame.wf df
    /\ (forall k, In k ["student_id"; "name"; "class"] ->
          exists col, Frame.assoc k (columns df) = Some col
                      /\ Forall (fun v => is_str v = true) col)
    /\ (forall k, In k ["comprehension"; "attention"; "focus"; "retention";
                        "assessment_score"] ->
          exists col, Frame.assoc k (columns df) = Some col
                      /\ Forall (fun v => is_int v = true) col)
    /\ (exists col, Frame.assoc "engagement_time" (columns df) = Some col
                    /\ Forall one_decimal col).
Proof.
  intros seed w.
  destruct (source_shape (RandomState seed))
    as [cls [c [a [f [r [u [noise [g'
         [Hs [L1 [L2 [L3 [L4 [L5 [L6 L7]]]]]]]]]]]]]]].
  eexists. exists g'. split.
  { rewrite generate_source, Hs. reflexivity. }
  split; [reflexivity|]. split; [reflexivity|]. split.
  { split.
    - unfold frame_columns. cbn [columns nrows].
      repeat constructor; cbn [snd]; rewrite ?length_map;
        rewrite ?length_student_ids, ?length_names; auto.
      unfold assessment_score. rewrite length_map.
      apply length_score_raw; auto. now rewrite length_map.
    - cbn. repeat constructor; cbn; intuition discriminate. }
  split.
  { intros k Hk. cbn in Hk.
    destruct Hk as [<- | [<- | [<- | []]]];
      (eexists; split; [reflexivity|]; now apply Forall_map_kind). }
  split.
  { intros k Hk. cbn in Hk.
    destruct Hk as [<- | [<- | [<- | [<- | [<- | []]]]]];
      (eexists; split; [reflexivity|]; now apply Forall_map_kind). }
  eexists. split; [reflexivity|].
  rewrite map_map. apply Forall_map_kind.
  intros x. unfold one_decimal, Np.round1. eauto.
Qed.

End SourceShape.

(** ** Rounding and clamping (line 27) *)

Section ClampFacts.

Local Open Scope Q_scope.

Lemma round_half_even_compat (p q : Q) :
  p == q -> Np.round_half_even p = Np.round_half_even q.
Proof.
  intros E. unfold Np.round_half_even.
  rewrite (Qfloor_comp p q E).
  assert (E' : p - inject_Z (Qfloor q) == q - inject_Z (Qfloor q))
    by (rewrite E; reflexivity).
  now rewrite (Qcompare_comp _ _ E' (1 # 2) (1 # 2) (Qeq_refl _)).
Qed.

Lemma inject_Z_succ_le (a b : Z) : (a < b)%Z -> inject_Z a + 1 <= inject_Z b.
Proof.
  intros H. change 1 with (inject_Z 1). rewrite <- inject_Z_plus.
  rewrite <- Zle_Qle. lia.
Qed.

Lemma round_half_even_monotone (s t : Q) :
  s <= t -> (Np.round_half_even s <= Np.round_half_even t)%Z.
Proof.
  intros H.
  destruct (Z.le_gt_cases (Np.round_half_even s) (Np.round_half_even t))
    as [L | Gt]; [exact L|].
  exfalso.
  destruct (round_half_even_close s) as [S1 _].
  destruct (round_half_even_close t) as [_ T2].
  pose proof (inject_Z_succ_le _ _ Gt) as J.
  assert (E : s == t) by lra.
  apply round_half_even_compat in E. lia.
Qed.

Lemma round_half_even_inject (z : Z) : Np.round_half_even (inject_Z z) = z.
Proof.
  unfold Np.round_half_even. rewrite Qfloor_Z.
  assert (E : Qcompare (inject_Z z - inject_Z z) (1 # 2) = Lt).
  { assert (Z0 : inject_Z z - inject_Z z == 0) by ring.
    now rewrite (Qcompare_comp _ _ Z0 (1 # 2) (1 # 2) (Qeq_refl _)). }
  now rewrite E.
Qed.

Lemma Qfloor_half (z : Z) : Qfloor (inject_Z z + (1 # 2)) = z.
Proof.
  unfold Qfloor, Qplus, inject_Z. simpl.
  symmetry. apply (Z.div_unique _ _ _ 1); lia.
Qed.

End ClampFacts.

(** X4. A higher raw score never gives a lower assessment score: rounding
    and clamping are monotone. *)
Theorem clamp_score_monotone :
  forall s t : Q, (s <= t)%Q -> (clamp_score s <= clamp_score t)%Z.
Proof.
  intros s t H. rewrite !clamp_score_eq.
  pose proof (round_half_even_monotone s t H). lia.
Qed.

Lemma clamp_score_monotone_witness :
  (199 # 2 <= 301 # 3)%Q
  /\ (clamp_score (199 # 2) <= clamp_score (301 # 3))%Z.
Proof.
  assert (H : (199 # 2 <= 301 # 3)%Q) by (unfold Qle; simpl; lia).
  split; [exact H|].
  exact (clamp_score_monotone (199 # 2) (301 # 3) H).
Defined.

(** X5. The three regimes of the assessment score.  A raw score of 0 or
    less gives 0 and one of 100 or more gives 100: out-of-range scores are
    clamped, not refused.  A raw score between 0 and 100 gives its
    rounding, which differs from it by at most one half. *)
Theorem clamp_score_regimes :
  forall s : Q,
    ((s <= 0)%Q -> clamp_score s = 0%Z)
    /\ ((100 <= s)%Q -> clamp_score s = 100%Z)
    /\ ((0 <= s)%Q -> (s <= 100)%Q ->
        clamp_score s = Np.round_half_even s
        /\ (inject_Z (clamp_score s) - (1 # 2) <= s)%Q
        /\ (s <= inject_Z (clamp_score s) + (1 # 2))%Q).
Proof.
  intros s. rewrite clamp_score_eq.
  destruct (round_half_even_close s) as [Lo Hi].
  assert (Up : (s <= 100)%Q -> (Np.round_half_even s <= 100)%Z).
  { intros H. destruct (Z.le_gt_cases (Np.round_half_even s) 100) as [|Gt];
      [assumption|]. exfalso.
    pose proof (inject_Z_succ_le _ _ Gt) as J.
    change (inject_Z 100) with 100%Q in J. change (inject_Z 0) with 0%Q in J.
    lra. }
  assert (Down : (0 <= s)%Q -> (0 <= Np.round_half_even s)%Z).
  { intros H. destruct (Z.le_gt_cases 0 (Np.round_half_even s)) as [|Gt];
      [assumption|]. exfalso.
    pose proof (inject_Z_succ_le _ _ Gt) as J.
    change (inject_Z 100) with 100%Q in J. change (inject_Z 0) with 0%Q in J.
    lra. }
  split; [|split].
  - intros H.
    assert ((Np.round_half_even s <= 0)%Z).
    { destruct (Z.le_gt_cases (Np.round_half_even s) 0) as [|Gt];
        [assumption|]. exfalso.
      pose proof (inject_Z_succ_le _ _ Gt) as J.
    change (inject_Z 100) with 100%Q in J. change (inject_Z 0) with 0%Q in J.
    lra. }
    lia.
  - intros H.
    assert ((100 <= Np.round_half_even s)%Z).
    { destruct (Z.le_gt_cases 100 (Np.round_half_even s)) as [|Gt];
        [assumption|]. exfalso.
      pose proof (inject_Z_succ_le _ _ Gt) as J.
    change (inject_Z 100) with 100%Q in J. change (inject_Z 0) with 0%Q in J.
    lra. }
    lia.
  - intros H0 H100. specialize (Up H100). specialize (Down H0).
    replace (Z.min (Z.max (Np.round_half_even s) 0) 100)
      with (Np.round_half_even s) by lia.
    auto.
Qed.

Lemma clamp_score_regimes_witness :
  ((-7 # 3 <= 0)%Q /\ clamp_score (-7 # 3) = 0%Z)
  /\ ((100 <= 211 # 2)%Q /\ clamp_score (211 # 2) = 100%Z)
  /\ ((0 <= 125 # 2)%Q /\ (125 # 2 <= 100)%Q
      /\ clamp_score (125 # 2) = Np.round_half_even (125 # 2)).
Proof.
  assert (H1 : (-7 # 3 <= 0)%Q) by (unfold Qle; simpl; lia).
  assert (H2 : (100 <= 211 # 2)%Q) by (unfold Qle; simpl; lia).
  assert (H3 : (0 <= 125 # 2)%Q) by (unfold Qle; simpl; lia).
  assert (H4 : (125 # 2 <= 100)%Q) by (unfold Qle; simpl; lia).
  split; [split; [exact H1|]|split; [split; [exact H2|]|]].
  - exact (proj1 (clamp_score_regimes (-7 # 3)) H1).
  - exact (proj1 (proj2 (clamp_score_regimes (211 # 2))) H2).
  - split; [exact H3|]. split; [exact H4|].
    exact (proj1 (proj2 (proj2 (clamp_score_regimes (125 # 2))) H3 H4)).
Defined.

(** X6. Rounding keeps whole numbers and sends a score halfway between
    two whole numbers to the even one; so a whole score between 0 and 100
    is its own assessment score. *)
Theorem rounding_rule :
  forall z : Z,
    Np.round_half_even (inject_Z z) = z
    /\ Np.round_half_even (inject_Z z + (1 # 2))
       = (if Z.even z then z else z + 1)%Z
    /\ ((0 <= z <= 100)%Z -> clamp_score (inject_Z z) = z).
Proof.
  intros z. split; [apply round_half_even_inject|]. split.
  - unfold Np.round_half_even. rewrite Qfloor_half.
    assert (E : Qcompare (inject_Z z + (1 # 2) - inject_Z z) (1 # 2) = Eq).
    { assert (H : inject_Z z + (1 # 2) - inject_Z z == 1 # 2) by ring.
      now rewrite (Qcompare_comp _ _ H (1 # 2) (1 # 2) (Qeq_refl _)). }
    now rewrite E.
  - intros H. rewrite clamp_score_eq, round_half_even_inject. lia.
Qed.

Lemma rounding_rule_witness :
  (0 <= 62 <= 100)%Z /\ clamp_score (inject_Z 62) = 62%Z.
Proof.
  assert (H : (0 <= 62 <= 100)%Z) by lia.
  split; [exact H|].
  exact (proj2 (proj2 (rounding_rule 62)) H).
Defined.

(** ** What the clustering reads (lines 38-41) *)

Section FeatureFrame.

Context {G : Generator}.

Lemma getitem_list_agree (df1 df2 : DataFrame) (ks : list string) :
  (forall k, In k ks ->
     Frame.assoc k (columns df1) = Frame.assoc k (columns df2)) ->
  Frame.getitem_list df1 ks = Frame.getitem_list df2 ks.
Proof.
  intros H. unfold Frame.getitem_list.
  assert (F : filter (fun k => negb (Frame.has_column df1 k)) ks
              = filter (fun k => negb (Frame.has_column df2 k)) ks).
  { apply filter_ext_in. intros k Hk. unfold Frame.has_column.
    now rewrite (H k Hk). }
  assert (M : map (fun k => (k, match Frame.assoc k (columns df1) with
                                | Some c => c
                                | None => []
                                end)) ks
              = map (fun k => (k, match Frame.assoc k (columns df2) with
                                  | Some c => c
                                  | None => []
                                  end)) ks).
  { apply map_ext_in. intros k Hk. now rewrite (H k Hk). }
  now rewrite F, M.
Qed.

Lemma length_to_numeric (sel : list (string * column)) :
  forall cols, MinMaxScaler.to_numeric sel = Ok cols ->
               List.length cols = List.length sel.
Proof.
  induction sel as [|[k c] sel IH]; simpl; intros cols H.
  - now inversion H.
  - destruct (MinMaxScaler.to_floats c); [|discriminate]. simpl in H.
    destruct (MinMaxScaler.to_numeric sel) as [rest|]; [|discriminate].
    simpl in H. inversion H. simpl. now rewrite (IH rest eq_refl).
Qed.

(** X9. The clustering reads the five feature columns and nothing else.
    Every scaled vector has five entries, in the order of
    [clustering_features] whatever the order of the frame's columns; and
    two frames with the same number of rows and the same five feature
    columns get the same scaled vectors and the same column of personas,
    whatever their identifiers, names, classes or assessment scores. *)
Theorem clustering_reads_features_only :
  forall (seed : Z) (df1 df2 : DataFrame),
    nrows df1 = nrows df2 ->
    (forall k, In k clustering_features ->
       Frame.assoc k (columns df1) = Frame.assoc k (columns df2)) ->
    df_scaled df1 = df_scaled df2
    /\ (forall X, df_scaled df1 = Ok X ->
          Forall (fun x => List.length x = 5%nat) X)
    /\ (forall e1 e2, enrich seed df1 = Ok e1 -> enrich seed df2 = Ok e2 ->
          Frame.assoc "persona_cluster" (columns e1)
          = Frame.assoc "persona_cluster" (columns e2)
          /\ Frame.assoc "learning_persona" (columns e1)
             = Frame.assoc "learning_persona" (columns e2)).
Proof.
  intros seed df1 df2 Hn Hf.
  assert (E : df_scaled df1 = df_scaled df2).
  { unfold df_scaled.
    now rewrite (getitem_list_agree df1 df2 clustering_features Hf), Hn. }
  split; [exact E|]. split.
  - intros X HX. unfold df_scaled in HX.
    destruct (Frame.getitem_list df1 clustering_features) as [sel|] eqn:Hs;
      [|discriminate].
    cbn [rbind] in HX. unfold MinMaxScaler.fit_transform in HX.
    destruct (nrows df1) as [|n]; [discriminate|].
    destruct (MinMaxScaler.to_numeric sel) as [cols|] eqn:Hc; [|discriminate].
    cbn [rbind] in HX. inversion HX as [EX].
    apply Forall_forall. intros x Hx. unfold MinMaxScaler.rows in Hx.
    apply in_map_iff in Hx. destruct Hx as [i [<- _]].
    rewrite !length_map, (length_to_numeric sel cols Hc).
    unfold Frame.getitem_list in Hs.
    destruct (filter _ clustering_features); [|discriminate].
    inversion Hs. reflexivity.
  - intros e1 e2 H1 H2. unfold enrich in H1, H2. rewrite <- E in H2.
    destruct (df_scaled df1) as [X|]; [|discriminate].
    cbn [rbind] in H1, H2.
    apply label_frame_inv in H1. destruct H1 as [_ H1].
    apply label_frame_inv in H2. destruct H2 as [_ H2].
    destruct (label_with_inv _ df1 e1 H1) as [_ ->].
    destruct (label_with_inv _ df2 e2 H2) as [_ ->].
    cbn [columns]. unfold enriched_columns.
    rewrite !assoc_set_same.
    rewrite !(assoc_set_other "learning_persona" "persona_cluster")
      by discriminate.
    now rewrite !assoc_set_same.
Qed.

End FeatureFrame.

Lemma clustering_reads_features_only_witness :
  nrows Sample.six_students = nrows (mkDF 6 (rev (columns Sample.six_students)))
  /\ (forall k, In k clustering_features ->
        Frame.assoc k (columns Sample.six_students)
        = Frame.assoc k (columns (mkDF 6 (rev (columns Sample.six_students)))))
  /\ df_scaled Sample.six_students
     = df_scaled (mkDF 6 (rev (columns Sample.six_students))).
Proof.
  assert (Hn : nrows Sample.six_students
               = nrows (mkDF 6 (rev (columns Sample.six_students))))
    by reflexivity.
  assert (Hf : forall k, In k clustering_features ->
                 Frame.assoc k (columns Sample.six_students)
                 = Frame.assoc k
                     (columns (mkDF 6 (rev (columns Sample.six_students))))).
  { intros k Hk. simpl in Hk.
    destruct Hk as [<- | [<- | [<- | [<- | [<- | []]]]]]; reflexivity. }
  split; [exact Hn|]. split; [exact Hf|].
  exact (proj1 (clustering_reads_features_only (G:=Sample.counter) 42
                  Sample.six_students
                  (mkDF 6 (rev (columns Sample.six_students))) Hn Hf)).
Defined.

(** ** Labelling and export as frame operations (lines 41-52) *)

Lemma replace_or_append_absent (k : string) (c : column)
      (l : list (string * column)) :
  ~ In k (map fst l) -> Frame.replace_or_append k c l = l ++ [(k, c)].
Proof.
  induction l as [|[k0 c0] l IH]; simpl; intros H; [reflexivity|].
  destruct (String.eqb k k0) eqn:E.
  - apply String.eqb_eq in E. subst. exfalso. apply H. now left.
  - rewrite IH; [reflexivity|]. intros Hin. apply H. now right.
Qed.

Lemma filter_keeps_all {A} (p : A -> bool) (l : list A) :
  (forall x, In x l -> p x = true) -> filter p l = l.
Proof.
  induction l as [|a l IH]; simpl; intros H; [reflexivity|].
  rewrite (H a) by now left. rewrite IH; [reflexivity|].
  intros x Hx. apply H. now right.
Qed.

(** X10. On a frame that has no column called [persona_cluster] or
    [learning_persona], labelling and then dropping the cluster column
    leaves the input frame with exactly one new column, [learning_persona],
    in last position: the columns of the input are neither changed nor
    reordered, and the cluster column leaves no trace. *)
Theorem export_is_input_plus_persona :
  forall (cl : list nat) (df : DataFrame),
    List.length cl = nrows df ->
    ~ In "persona_cluster" (Frame.names df) ->
    ~ In "learning_persona" (Frame.names df) ->
    exists e,
      label_with cl df = Ok e
      /\ Frame.drop e ["persona_cluster"]
         = Ok (mkDF (nrows df)
                    (columns df ++ [("learning_persona", persona_column cl)]))
      /\ df_output e
         = Ok (Frame.to_records
                 (mkDF (nrows df)
                       (columns df
                        ++ [("learning_persona", persona_column cl)]))).
Proof.
  intros cl df L N1 N2.
  exists (mkDF (nrows df) (enriched_columns cl (columns df))).
  split; [now apply label_with_ok|].
  assert (D : Frame.drop (mkDF (nrows df) (enriched_columns cl (columns df)))
                         ["persona_cluster"]
              = Ok (mkDF (nrows df)
                         (columns df
                          ++ [("learning_persona", persona_column cl)]))).
  { unfold Frame.drop. cbn [filter].
    rewrite enriched_has_cluster. cbn [negb nrows columns].
    f_equal. f_equal. unfold enriched_columns.
    rewrite (replace_or_append_absent "persona_cluster") by exact N1.
    rewrite replace_or_append_absent.
    - rewrite !filter_app. cbn.
      rewrite filter_keeps_all; [now rewrite app_nil_r|].
      intros [k c] Hin. cbn. rewrite orb_false_r.
      apply negb_true_iff, String.eqb_neq. intros ->.
      apply N1. unfold Frame.names. apply in_map_iff.
      exists ("persona_cluster", c). auto.
    - rewrite map_app. intros Hin. apply in_app_or in Hin.
      destruct Hin as [Hin | [Hin | []]]; [now apply N2 | discriminate]. }
  split; [exact D|].
  unfold df_output. now rewrite D.
Qed.

Lemma export_is_input_plus_persona_witness :
  exists e,
    label_with Sample.pairs Sample.six_students = Ok e
    /\ Frame.drop e ["persona_cluster"]
       = Ok (mkDF (nrows Sample.six_students)
                  (columns Sample.six_students
                   ++ [("learning_persona", persona_column Sample.pairs)])).
Proof.
  assert (N1 : ~ In "persona_cluster" (Frame.names Sample.six_students))
    by (cbn; intuition discriminate).
  assert (N2 : ~ In "learning_persona" (Frame.names Sample.six_students))
    by (cbn; intuition discriminate).
  destruct (export_is_input_plus_persona Sample.pairs Sample.six_students
              eq_refl N1 N2) as [e [He [Hd _]]].
  exists e. split; [exact He | exact Hd].
Defined.

Lemma persona_of_unmapped (c : nat) : (3 <= c)%nat -> persona_of c = VNaN.
Proof.
  intros H. unfold persona_of, persona_names. cbn [find fst].
  destruct (Z.eqb_spec 0 (Z.of_nat c)) as [E|_]; [lia|].
  destruct (Z.eqb_spec 1 (Z.of_nat c)) as [E|_]; [lia|].
  destruct (Z.eqb_spec 2 (Z.of_nat c)) as [E|_]; [lia|].
  reflexivity.
Qed.

(** X11. The persona table has entries for the indices 0, 1 and 2 only,
    and looking up any other index raises nothing: labelling and export
    still succeed, and the record of a row whose cluster index is 3 or
    more is exported with a missing (NaN) persona. *)
Theorem unmapped_cluster_is_nan :
  forall (cl : list nat) (df : DataFrame),
    List.length cl = nrows df ->
    exists e out,
      label_with cl df = Ok e
      /\ df_output e = Ok out
      /\ forall i c, nth_error cl i = Some c -> (3 <= c)%nat ->
           exists r, nth_error out i = Some r
                     /\ Frame.assoc "learning_persona" r = Some VNaN.
Proof.
  intros cl df L.
  pose proof (label_with_ok cl df L) as He.
  pose proof (df_output_ok _ (enriched_has_cluster cl (nrows df) (columns df)))
    as Ho.
  set (e := mkDF (nrows df) (enriched_columns cl (columns df))) in *.
  set (out := map (fun r : record => filter (fun kv => kept (fst kv)) r)
                  (Frame.to_records e)) in *.
  exists e, out. split; [exact He|]. split; [exact Ho|].
  intros i c Hc H3.
  assert (Hi : (i < nrows df)%nat).
  { rewrite <- L. apply nth_error_Some. congruence. }
  destruct (nth_error out i) as [r|] eqn:Hr.
  - exists r. split; [exact Hr|].
    rewrite (exported_persona cl df e out i c r He Ho Hr Hc).
    now rewrite persona_of_unmapped.
  - apply nth_error_None in Hr. unfold out in Hr.
    rewrite length_map, length_to_records in Hr. simpl in Hr. lia.
Qed.

Lemma unmapped_cluster_is_nan_witness :
  List.length [0; 3; 1; 1; 2; 2]%nat = nrows Sample.six_students
  /\ exists e out r,
      label_with [0; 3; 1; 1; 2; 2]%nat Sample.six_students = Ok e
      /\ df_output e = Ok out
      /\ nth_error out 1 = Some r
      /\ Frame.assoc "learning_persona" r = Some VNaN.
Proof.
  split; [reflexivity|].
  destruct (unmapped_cluster_is_nan [0; 3; 1; 1; 2; 2]%nat Sample.six_students
              eq_refl) as [e [out [He [Ho H]]]].
  destruct (H 1%nat 3%nat eq_refl (le_n 3)) as [r [Hr Hv]].
  exists e, out, r. auto.
Defined.

(** ** The file system (lines 47-52) *)

Section ExportFacts.

Context {G : Generator}.

Lemma public_after (w : World) (out : list record) :
  writable w = true ->
  existsb (String.eqb public_dir) (dirs (exported_world w out)) = true.
Proof.
  intros Hw. unfold writable in Hw. apply andb_prop in Hw.
  destruct Hw as [D _]. unfold exported_world. cbn [dirs].
  destruct (present w).
  - cbn [negb] in D. now rewrite orb_false_r in D.
  - cbn [existsb]. now rewrite String.eqb_refl.
Qed.

Lemma present_after (w : World) (out : list record) :
  writable w = true -> present (exported_world w out) = true.
Proof.
  intros Hw. unfold present. now rewrite (public_after w out Hw).
Qed.

Lemma writable_after (w : World) (out : list record) :
  writable w = true -> writable (exported_world w out) = true.
Proof.
  intros Hw. unfold writable at 1.
  rewrite (public_after w out Hw). cbn [orb andb].
  unfold writable in Hw. apply andb_prop in Hw. destruct Hw as [_ N].
  unfold exported_world. cbn [dirs].
  destruct (present w); [exact N|].
  cbn [existsb]. exact N.
Qed.

Lemma filter_twice {A} (p : A -> bool) (l : list A) :
  filter p (filter p l) = filter p l.
Proof.
  induction l as [|a l IH]; cbn [filter]; [reflexivity|].
  destruct (p a) eqn:E; cbn [filter]; [rewrite E; now rewrite IH | exact IH].
Qed.

(** Exporting the same records a second time changes nothing. *)
Lemma exported_twice (w : World) (out : list record) :
  writable w = true ->
  exported_world (exported_world w out) out = exported_world w out.
Proof.
  intros Hw. unfold exported_world at 1.
  rewrite (present_after w out Hw).
  unfold exported_world. cbn [np_random dirs files]. f_equal. f_equal.
  cbn [filter fst]. rewrite String.eqb_refl. cbn [negb].
  apply filter_twice.
Qed.

(** X12. What lines 37-52 do to the world once the frame has been
    enriched.  Where the shape of the tree allows the export (the model
    has no permissions), the run succeeds.  Where it does not -- the name
    of the output directory is taken by a regular file, or the output
    path is a directory -- the run ends in an [OSError] with every file
    and the global generator as they were.  After a run that succeeds the
    output directory is a directory, having been created only if no path
    of that name existed, and no other directory was added or removed;
    the output file holds the exported records and every other file is as
    it was; and the state of the global generator is untouched, the
    clustering having a generator of its own. *)
Theorem pipeline_footprint :
  forall (seed : Z) (df : DataFrame) (w : World),
    (forall e, enrich seed df = Ok e -> writable w = true ->
       fst (pipeline seed df w) = Ok tt)
    /\ (forall e, enrich seed df = Ok e -> writable w = false ->
          exists msg,
            fst (pipeline seed df w) = Raise (OSError msg)
            /\ np_random (snd (pipeline seed df w)) = np_random w
            /\ files (snd (pipeline seed df w)) = files w)
    /\ (fst (pipeline seed df w) = Ok tt ->
        exists out,
          analysis seed df = Ok out
          /\ np_random (snd (pipeline seed df w)) = np_random w
          /\ dirs (snd (pipeline seed df w))
             = (if present w then dirs w else public_dir :: dirs w)
          /\ existsb (String.eqb public_dir) (dirs (snd (pipeline seed df w)))
             = true
          /\ read_file output_path (snd (pipeline seed df w)) = Some out
          /\ forall p, p <> output_path ->
               read_file p (snd (pipeline seed df w)) = read_file p w).
Proof.
  intros seed df w. split; [|split].
  - intros e He Hw. destruct (enrich_output seed df e He) as [out [Ho _]].
    now rewrite (pipeline_writable seed df e w out He Ho Hw).
  - intros e He Hw. exact (pipeline_unwritable seed df e w He Hw).
  - intros H.
    destruct (pipeline_success seed df w H) as [e [out [_ [Ha [Hw Hp]]]]].
    exists out. rewrite Hp. cbn [snd].
    split; [exact Ha|]. split; [reflexivity|]. split; [reflexivity|].
    split; [now apply public_after|].
    split; [apply read_exported|].
    intros p Hp'. now apply read_other_exported.
Qed.

(** X13. Running the script a second time changes nothing: after a run
    that succeeded, a second run succeeds and leaves the generator state,
    the directories and the files exactly as the first run left them. *)
Theorem rerun_changes_nothing :
  forall w : World,
    fst (main w) = Ok tt ->
    fst (main (snd (main w))) = Ok tt
    /\ snd (main (snd (main w))) = snd (main w).
Proof.
  intros w H.
  destruct (main_success w H) as [df [out [g' [Hs [_ [Ha [Hw Hm]]]]]]].
  set (w0 := mkWorld g' (dirs w) (files w)) in *.
  assert (Hw0 : writable w0 = true) by exact Hw.
  rewrite Hm. cbn [snd].
  pose proof (writable_after w0 out Hw0) as Hw1.
  pose proof (main_writable (exported_world w0 out) Hw1) as H1.
  split; [exact H1|].
  destruct (main_success _ H1) as [df2 [out2 [g2 [Hs2 [_ [Ha2 [_ Hm2]]]]]]].
  rewrite Hs in Hs2. inversion Hs2; subst df2 g2.
  rewrite Ha in Ha2. inversion Ha2; subst out2.
  rewrite Hm2. cbn [snd].
  change (mkWorld g' (dirs (exported_world w0 out))
                  (files (exported_world w0 out)))
    with (exported_world w0 out).
  now apply exported_twice.
Qed.

End ExportFacts.

Lemma pipeline_footprint_witness :
  enrich (G:=Sample.counter) 42 Sample.six_students = Ok enriched_six
  /\ writable (mkWorld (G:=Sample.counter) 7%nat [] [("notes.txt", [])])
     = true
  /\ fst (pipeline (G:=Sample.counter) 42 Sample.six_students
                   (mkWorld (G:=Sample.counter) 7%nat []
                            [("notes.txt", [])])) = Ok tt
  /\ exists out,
      analysis (G:=Sample.counter) 42 Sample.six_students = Ok out
      /\ read_file output_path
           (snd (pipeline (G:=Sample.counter) 42 Sample.six_students
                          (mkWorld (G:=Sample.counter) 7%nat []
                                   [("notes.txt", [])])))
         = Some out
      /\ read_file "notes.txt"
           (snd (pipeline (G:=Sample.counter) 42 Sample.six_students
                          (mkWorld (G:=Sample.counter) 7%nat []
                                   [("notes.txt", [])])))
         = read_file "notes.txt"
             (mkWorld (G:=Sample.counter) 7%nat [] [("notes.txt", [])]).
Proof.
  destruct (pipeline_footprint (G:=Sample.counter) 42 Sample.six_students
              (mkWorld (G:=Sample.counter) 7%nat [] [("notes.txt", [])]))
    as [P1 [_ P3]].
  pose proof (P1 enriched_six enrich_six eq_refl) as H.
  split; [exact enrich_six|]. split; [reflexivity|]. split; [exact H|].
  destruct (P3 H) as [out [Ho [_ [_ [_ [Hr Hf]]]]]].
  exists out. split; [exact Ho|]. split; [exact Hr|].
  apply Hf. discriminate.
Defined.

(** A regular file that takes the name of the output directory: the run
    ends in an [OSError]. *)
Example public_is_a_file :
  exists msg,
    fst (pipeline (G:=Sample.counter) 42 Sample.six_students
                  (mkWorld (G:=Sample.counter) 0%nat [] [("public", [])]))
    = Raise (OSError msg).
Proof.
  destruct (pipeline_unwritable (G:=Sample.counter) 42 Sample.six_students
              enriched_six
              (mkWorld (G:=Sample.counter) 0%nat [] [("public", [])])
              enrich_six eq_refl) as [msg [H _]].
  exists msg. exact H.
Qed.

Lemma rerun_changes_nothing_witness :
  fst (main (G:=Sample.counter) (mkWorld (G:=Sample.counter) 0%nat [] []))
  = Ok tt
  /\ fst (main (G:=Sample.counter)
               (snd (main (G:=Sample.counter)
                          (mkWorld (G:=Sample.counter) 0%nat [] []))))
     = Ok tt
  /\ snd (main (G:=Sample.counter)
               (snd (main (G:=Sample.counter)
                          (mkWorld (G:=Sample.counter) 0%nat [] []))))
     = snd (main (G:=Sample.counter)
                 (mkWorld (G:=Sample.counter) 0%nat [] [])).
Proof.
  assert (H : fst (main (G:=Sample.counter)
                        (mkWorld (G:=Sample.counter) 0%nat [] []))
              = Ok tt)
    by (apply (main_writable (G:=Sample.counter)); reflexivity).
  split; [exact H|].
  exact (rerun_changes_nothing (G:=Sample.counter)
           (mkWorld (G:=Sample.counter) 0%nat [] []) H).
Defined.

(** ** The records that the script writes *)

(** X14. A run of the script that succeeds has written [num_students]
    records, record [i] for student [i]: it has exactly the ten fields of
    the output schema, in order; its [student_id] and [name] are the
    identifier and the display name of row [i]; and its
    [learning_persona] is one of the three persona strings. *)
Theorem script_output_records :
  forall {G : Generator} (w : World),
    fst (main w) = Ok tt ->
    exists out,
      read_file output_path (snd (main w)) = Some out
      /\ List.length out = num_students
      /\ forall i r, nth_error out i = Some r ->
           map fst r = output_schema
           /\ (exists s, nth_error student_ids i = Some s
                         /\ Frame.assoc "student_id" r = Some (VStr s))
           /\ (exists s, nth_error names i = Some s
                         /\ Frame.assoc "name" r = Some (VStr s))
           /\ (Frame.assoc "learning_persona" r
               = Some (VStr "Balanced Average")
               \/ Frame.assoc "learning_persona" r
                  = Some (VStr "High-Skill Achiever")
               \/ Frame.assoc "learning_persona" r
                  = Some (VStr "Low Engagement/Struggler")).
Proof.
  intros G w Hm.
  destruct (main_success w Hm)
    as [df [out [g' [_ [[cls [c [a [f [r0 [e [raw [Edf _]]]]]]]]
                         [Ha [_ Hw]]]]]]].
  exists out. split; [rewrite Hw; apply read_exported|].
  pose proof (length_analysis 42 df out Ha) as L.
  split; [rewrite L, Edf; reflexivity|].
  intros i r Hi.
  destruct (analysis_inv 42 df out Ha) as [X [en [HX [He Ho]]]].
  destruct (exported_record _ df en out i r He Ho Hi) as [Hlt [Er Een]].
  assert (Hlt' : (i < num_students)%nat) by (rewrite Edf in Hlt; exact Hlt).
  split.
  { rewrite Er, map_fst_filter, names_row, Een.
    unfold Frame.names, enriched_columns. cbn [columns].
    rewrite !names_set, Edf. reflexivity. }
  split.
  { destruct (nth_error student_ids i) as [s|] eqn:Hs.
    - exists s. split; [reflexivity|].
      rewrite (exported_field _ df en out i r "student_id" He Ho Hi)
        by discriminate.
      rewrite assoc_row, Edf.
      change (Frame.assoc "student_id"
                (columns (mkDF num_students
                            (frame_columns cls c a f r0 e
                                           (assessment_score raw)))))
        with (Some (map VStr student_ids)).
      cbn [option_map]. f_equal. apply nth_error_nth.
      now rewrite nth_error_map, Hs.
    - apply nth_error_None in Hs. rewrite length_student_ids in Hs. lia. }
  split.
  { destruct (nth_error names i) as [s|] eqn:Hs.
    - exists s. split; [reflexivity|].
      rewrite (exported_field _ df en out i r "name" He Ho Hi) by discriminate.
      rewrite assoc_row, Edf.
      change (Frame.assoc "name"
                (columns (mkDF num_students
                            (frame_columns cls c a f r0 e
                                           (assessment_score raw)))))
        with (Some (map VStr names)).
      cbn [option_map]. f_equal. apply nth_error_nth.
      now rewrite nth_error_map, Hs.
    - apply nth_error_None in Hs. rewrite length_names in Hs. lia. }
  destruct (nth_error (KMeans.labels_ (kmeans 42 X)) i) as [k|] eqn:Hk.
  - rewrite (exported_persona _ df en out i k r He Ho Hi Hk).
    pose proof (labels_range 42 X i k Hk) as Hk3.
    destruct k as [|[|[|k]]]; auto. lia.
  - apply nth_error_None in Hk.
    rewrite length_labels, (length_df_scaled df X HX) in Hk. lia.
Qed.

Lemma script_output_records_witness :
  fst (main (G:=Sample.counter) (mkWorld (G:=Sample.counter) 0%nat [] []))
  = Ok tt
  /\ exists out r,
      read_file output_path
        (snd (main (G:=Sample.counter)
                   (mkWorld (G:=Sample.counter) 0%nat [] [])))
      = Some out
      /\ List.length out = num_students
      /\ nth_error out 0 = Some r
      /\ map fst r = output_schema
      /\ Frame.assoc "student_id" r = Some (VStr "S001").
Proof.
  assert (Hm : fst (main (G:=Sample.counter)
                         (mkWorld (G:=Sample.counter) 0%nat [] []))
               = Ok tt)
    by (apply (main_writable (G:=Sample.counter)); reflexivity).
  split; [exact Hm|].
  destruct (script_output_records (G:=Sample.counter)
              (mkWorld (G:=Sample.counter) 0%nat [] []) Hm)
    as [out [Hr [L H]]].
  destruct (nth_error out 0) as [r|] eqn:H0.
  - exists out, r. split; [exact Hr|]. split; [exact L|].
    split; [exact H0|].
    destruct (H 0%nat r H0) as [Hk [[s [Hs Hid]] _]].
    split; [exact Hk|].
    assert (E : Some s = Some "S001") by (rewrite <- Hs; reflexivity).
    inversion E; subst s. exact Hid.
  - exfalso. apply nth_error_None in H0. rewrite L in H0.
    unfold num_students in H0. lia.
Defined.
